(** * Workout statistics (homework.py): a shallow embedding and its properties

    The program computes distance, mean speed and spent calories for three
    kinds of workout (running, sports walking, swimming) and renders a
    one-line report.  Its arithmetic runs on Python numbers: unbounded
    integers and IEEE 754 binary64 floats, mixed freely.  The embedding keeps
    both: integers are [Z], floats are Rocq's primitive binary64 floats, and
    every operator follows CPython's coercion and error rules.  Exceptions are
    values of an error monad. *)

From Stdlib Require Import ZArith QArith Qabs Floats String Ascii List.
From Stdlib Require Import DecimalString.
Import ListNotations.

Set Warnings "-inexact-float".

Local Open Scope Z_scope.

(** ** Exceptions and the error monad

    The exceptions the program can raise, by class; [Unmodelled] marks a
    construct of Python that the embedding does not cover. *)

Inductive exn : Type :=
| NotImplementedError (msg : string)
| TypeError
| AttributeError
| KeyError
| ValueError
| ZeroDivisionError
| OverflowError
| Unmodelled.

Inductive result (A : Type) : Type :=
| Ok (a : A)
| Raise (e : exn).

Arguments Ok {A} a.
Arguments Raise {A} e.

Definition bind {A B : Type} (m : result A) (k : A -> result B) : result B :=
  match m with
  | Ok a => k a
  | Raise e => Raise e
  end.

Notation "x <- m ;; k" := (bind m (fun x => k))
  (at level 61, m at next level, right associativity).

Definition is_ok {A : Type} (m : result A) : bool :=
  match m with Ok _ => true | Raise _ => false end.

(** ** Python numbers *)

Module PyNum.

Inductive num : Type :=
| PInt (z : Z)
| PFloat (f : float).

(** [PyLong_AsDouble]: the nearest double, ties to even; an integer that
    rounds beyond the largest double raises [OverflowError]. *)
Definition int_to_float (z : Z) : result float :=
  let f := SF2Prim (binary_normalize prec emax z 0 false) in
  if is_infinity f then Raise OverflowError else Ok f.

(** [CONVERT_TO_DOUBLE] of floatobject.c. *)
Definition to_float (n : num) : result float :=
  match n with
  | PInt z => int_to_float z
  | PFloat f => Ok f
  end.

(** Binary operators: two integers stay integers, anything else is computed
    on doubles after converting the left operand, then the right one. *)
Definition coerce (fz : Z -> Z -> result num) (ff : float -> float -> result num)
    (a b : num) : result num :=
  match a, b with
  | PInt x, PInt y => fz x y
  | _, _ => x <- to_float a ;; y <- to_float b ;; ff x y
  end.

Definition py_add : num -> num -> result num :=
  coerce (fun x y => Ok (PInt (x + y))) (fun x y => Ok (PFloat (x + y)%float)).

Definition py_sub : num -> num -> result num :=
  coerce (fun x y => Ok (PInt (x - y))) (fun x y => Ok (PFloat (x - y)%float)).

Definition py_mul : num -> num -> result num :=
  coerce (fun x y => Ok (PInt (x * y))) (fun x y => Ok (PFloat (x * y)%float)).

(** [long_true_divide]: the correctly rounded quotient of two integers.  The
    quotient is computed to at least 56 bits with a sticky last bit and rounded
    once. *)
Definition int_true_divide (a b : Z) : result num :=
  if b =? 0 then Raise ZeroDivisionError
  else if a =? 0 then Ok (PFloat (if b <? 0 then PrimFloat.neg_zero else PrimFloat.zero))
  else
    let x := Z.abs a in
    let y := Z.abs b in
    let k := 56 + Z.log2 y - Z.log2 x in
    let X := if 0 <=? k then Z.shiftl x k else x in
    let Y := if 0 <=? k then y else Z.shiftl y (- k) in
    let q := X / Y in
    let sticky := if X mod Y =? 0 then 0 else 1 in
    let m := 2 * q + sticky in
    let sm := if xorb (a <? 0) (b <? 0) then - m else m in
    let f := SF2Prim (binary_normalize prec emax sm (- k - 1) false) in
    if is_infinity f then Raise OverflowError else Ok (PFloat f).

(** [float_div]: a zero divisor raises, whatever the dividend. *)
Definition float_div (x y : float) : result num :=
  if (y =? 0)%float then Raise ZeroDivisionError else Ok (PFloat (x / y)%float).

Definition py_truediv : num -> num -> result num :=
  coerce int_true_divide float_div.

(** The exact value of a finite double as [m * 2^e]. *)
Definition float_to_ZE (f : float) : option (Z * Z) :=
  match Prim2SF f with
  | S754_zero _ => Some (0, 0)
  | S754_finite s m e => Some (if s then Z.neg m else Z.pos m, e)
  | _ => None
  end.

Definition ZE_to_float (m e : Z) : float :=
  SF2Prim (binary_normalize prec emax m e false).

Definition copysign_zero (f : float) : float :=
  if get_sign f then PrimFloat.neg_zero else PrimFloat.zero.

(** C's [fmod]: the exact remainder of [x / y] truncated toward zero, with the
    sign of [x]. *)
Definition c_fmod (x y : float) : float :=
  if is_nan x || is_nan y || is_infinity x || is_zero y then nan
  else if is_infinity y || is_zero x then x
  else
    match float_to_ZE x, float_to_ZE y with
    | Some (mx, ex), Some (my, ey) =>
        let e := Z.min ex ey in
        let X := Z.shiftl (Z.abs mx) (ex - e) in
        let Y := Z.shiftl (Z.abs my) (ey - e) in
        let r := X mod Y in
        if r =? 0 then copysign_zero x
        else ZE_to_float (if mx <? 0 then - r else r) e
    | _, _ => nan
    end.

(** C's [floor]. *)
Definition c_floor (d : float) : float :=
  match float_to_ZE d with
  | Some (m, e) =>
      if is_zero d || (0 <=? e) then d
      else
        let k := m / Z.shiftl 1 (- e) in
        if k =? 0 then PrimFloat.zero else ZE_to_float k 0
  | None => d
  end.

(** [float_floor_div] with [_float_div_mod] of floatobject.c. *)
Definition float_floor_div (vx wx : float) : result num :=
  if (wx =? 0)%float then Raise ZeroDivisionError
  else
    let mod_ := c_fmod vx wx in
    let div := ((vx - mod_) / wx)%float in
    let div :=
      if negb (mod_ =? 0)%float
      then if xorb (wx <? 0)%float (mod_ <? 0)%float then (div - 1)%float else div
      else div in
    if negb (div =? 0)%float then
      let floordiv := c_floor div in
      Ok (PFloat (if (0.5 <? div - floordiv)%float
                  then (floordiv + 1)%float else floordiv))
    else Ok (PFloat (copysign_zero (vx / wx)%float)).

Definition int_floor_div (a b : Z) : result num :=
  if b =? 0 then Raise ZeroDivisionError else Ok (PInt (a / b)).

Definition py_floordiv : num -> num -> result num :=
  coerce int_floor_div float_floor_div.

(** [float_pow] at the exponent 2.0: the special cases in the order of the
    source, then C's [pow] of a libm that rounds the square correctly; a
    finite base whose square overflows raises [OverflowError].  A libm may
    differ in the last bit: [Libm.float_pow2] below takes its [pow] as a
    parameter, and what depends on that bit is stated there. *)
Definition float_pow2 (iv : float) : result num :=
  if is_nan iv then Ok (PFloat iv)
  else if is_infinity iv then Ok (PFloat (abs iv))
  else if (iv =? 0)%float then Ok (PFloat PrimFloat.zero)
  else
    let iv := abs iv in
    if (iv =? 1)%float then Ok (PFloat PrimFloat.one)
    else
      let ix := (iv * iv)%float in
      if is_infinity ix then Raise OverflowError else Ok (PFloat ix).

(** [x ** 2]: an integer base gives an integer. *)
Definition py_pow2 (a : num) : result num :=
  match a with
  | PInt z => Ok (PInt (z * z))
  | PFloat f => float_pow2 f
  end.

(** The comparisons [n > 0], [n < 0] and [n == 0]. *)
Definition py_gt0 (n : num) : bool :=
  match n with
  | PInt z => 0 <? z
  | PFloat f => (0 <? f)%float
  end.

Definition py_lt0 (n : num) : bool :=
  match n with
  | PInt z => z <? 0
  | PFloat f => (f <? 0)%float
  end.

Definition py_is0 (n : num) : bool :=
  match n with
  | PInt z => z =? 0
  | PFloat f => (f =? 0)%float
  end.

(** The exact rational value of a number; [None] for nan and the infinities. *)
Definition num_to_Q (n : num) : option Q :=
  match n with
  | PInt z => Some (inject_Z z)
  | PFloat f =>
      match float_to_ZE f with
      | Some (m, e) =>
          Some (if 0 <=? e then inject_Z (m * 2 ^ e)
                else Qmake m (Z.to_pos (2 ^ (- e))))
      | None => None
      end
  end.

End PyNum.
Import PyNum.

(** ** Text: decimal digits, fixed-point formatting, [str.format] *)

Module PyStr.

Local Open Scope string_scope.
Local Open Scope Z_scope.

Definition decimal (n : Z) : string :=
  NilZero.string_of_uint (N.to_uint (Z.to_N n)).

Definition tail (s : string) : string :=
  match s with
  | EmptyString => EmptyString
  | String _ r => r
  end.

(** [n * 2^e * 10^p] rounded to the nearest integer, ties to even, for
    [0 <= n]: the digits the correctly rounded conversion of CPython prints. *)
Definition scaled_round (n e : Z) (p : nat) : Z :=
  let num := n * 10 ^ Z.of_nat p in
  if 0 <=? e then num * 2 ^ e
  else
    let den := 2 ^ (- e) in
    let q := num / den in
    let r := num mod den in
    match 2 * r ?= den with
    | Lt => q
    | Gt => q + 1
    | Eq => if Z.even q then q else q + 1
    end.

(** [format(x, '.pf')] for a double. *)
Definition format_float_f (p : nat) (x : float) : string :=
  if is_nan x then "nan"
  else if is_infinity x then (if get_sign x then "-inf" else "inf")
  else
    match float_to_ZE x with
    | Some (m, e) =>
        let N := scaled_round (Z.abs m) e p in
        let scale := 10 ^ Z.of_nat p in
        let whole := decimal (N / scale) in
        let frac := tail (decimal (scale + N mod scale)) in
        (if get_sign x then "-" else "")
          ++ whole ++ (match p with O => "" | S _ => "." ++ frac end)
    | None => "nan"
    end.

(** [format(n, '.pf')]: an integer is converted to a double first. *)
Definition format_f (p : nat) (n : num) : result string :=
  x <- to_float n ;; Ok (format_float_f p x).

(** The values a replacement field can name. *)
Inductive value : Type :=
| VStr (s : string)
| VNum (n : num).

Definition digit_of (c : ascii) : option nat :=
  let n := nat_of_ascii c in
  if (48 <=? n)%nat && (n <=? 57)%nat then Some (n - 48)%nat else None.

Fixpoint parse_precision (s : string) (acc : nat) : option nat :=
  match s with
  | String "f" EmptyString => Some acc
  | String c r =>
      match digit_of c with
      | Some d => parse_precision r (10 * acc + d)%nat
      | None => None
      end
  | EmptyString => None
  end.

(** The format specifications of the embedding: the empty one and [.Nf]. *)
Inductive fspec : Type :=
| SpecEmpty
| SpecFixed (p : nat)
| SpecOther.

Definition parse_spec (s : string) : fspec :=
  match s with
  | EmptyString => SpecEmpty
  | String "." (String c r) =>
      match digit_of c with
      | Some _ =>
          match parse_precision (String c r) 0 with
          | Some p => SpecFixed p
          | None => SpecOther
          end
      | None => SpecOther
      end
  | _ => SpecOther
  end.

(** [format(v, spec)].  A string takes no [f] code; what the embedding does
    not cover (the repr of a float, other format codes) is [Unmodelled]. *)
Definition format_value (v : value) (spec : string) : result string :=
  match parse_spec spec, v with
  | SpecEmpty, VStr s => Ok s
  | SpecEmpty, VNum (PInt z) =>
      Ok ((if z <? 0 then "-" else "") ++ decimal (Z.abs z))
  | SpecEmpty, VNum (PFloat _) => Raise Unmodelled
  | SpecFixed _, VStr _ => Raise ValueError
  | SpecFixed p, VNum n => format_f p n
  | SpecOther, _ => Raise Unmodelled
  end.

Definition kwargs : Type := list (string * value).

Fixpoint lookup (kw : kwargs) (name : string) : result value :=
  match kw with
  | [] => Raise KeyError
  | (k, v) :: rest => if String.eqb k name then Ok v else lookup rest name
  end.

Definition render_field (kw : kwargs) (name spec : string) : result string :=
  v <- lookup kw name ;; format_value v spec.

Inductive mode : Type :=
| InText
| InName (name : string)
| InSpec (name spec : string).

Definition snoc (s : string) (c : ascii) : string := s ++ String c EmptyString.

(** [str.format] with keyword arguments [kw], over replacement fields [{name}] and [{name:spec}],
    with the escapes [{{] and [}}], read left to right. *)
Fixpoint format_from (kw : kwargs) (m : mode) (s : string) : result string :=
  match s with
  | EmptyString =>
      match m with
      | InText => Ok EmptyString
      | _ => Raise ValueError
      end
  | String c rest =>
      match m with
      | InText =>
          if Ascii.eqb c "{" then
            match rest with
            | String "{" rest' =>
                r <- format_from kw InText rest' ;; Ok (String "{" r)
            | _ => format_from kw (InName EmptyString) rest
            end
          else if Ascii.eqb c "}" then
            match rest with
            | String "}" rest' =>
                r <- format_from kw InText rest' ;; Ok (String "}" r)
            | _ => Raise ValueError
            end
          else r <- format_from kw InText rest ;; Ok (String c r)
      | InName name =>
          if Ascii.eqb c "}" then
            v <- render_field kw name EmptyString ;;
            r <- format_from kw InText rest ;; Ok (v ++ r)
          else if Ascii.eqb c ":" then format_from kw (InSpec name EmptyString) rest
          else format_from kw (InName (snoc name c)) rest
      | InSpec name spec =>
          if Ascii.eqb c "}" then
            v <- render_field kw name spec ;;
            r <- format_from kw InText rest ;; Ok (v ++ r)
          else format_from kw (InSpec name (snoc spec c)) rest
      end
  end.

Definition format (template : string) (kw : kwargs) : result string :=
  format_from kw InText template.

End PyStr.
Import PyStr.

(** ** InfoMessage *)

Module InfoMessage.

Local Open Scope string_scope.

Record t : Type := mk {
  training_type : string;
  duration : num;
  distance : num;
  speed : num;
  calories : num;
  message : string
}.

(** The default value of the field [message]. *)
Definition default_message : string :=
  "Тип тренировки: {training_type}; "
  ++ "Длительность: {duration:.3f} ч.; "
  ++ "Дистанция: {distance:.3f} км; "
  ++ "Ср. скорость: {speed:.3f} км/ч; "
  ++ "Потрачено ккал: {calories:.3f}.".

Definition asdict (self : t) : kwargs :=
  [ ("training_type", VStr (training_type self));
    ("duration", VNum (duration self));
    ("distance", VNum (distance self));
    ("speed", VNum (speed self));
    ("calories", VNum (calories self));
    ("message", VStr (message self)) ].

Definition get_message (self : t) : result string :=
  format (message self) (asdict self).

End InfoMessage.

(** ** The workout classes *)

Module Cls.

Inductive t : Type := Training | Running | SportsWalking | Swimming.

Definition name (c : t) : string :=
  match c with
  | Training => "Training"
  | Running => "Running"
  | SportsWalking => "SportsWalking"
  | Swimming => "Swimming"
  end.

End Cls.

(** Class attributes, read through the class of the instance: [Swimming]
    shadows [LEN_STEP], the other subclasses inherit it. *)
Definition M_IN_KM (c : Cls.t) : num := PInt 1000.
Definition MIN_IN_HOUR (c : Cls.t) : num := PInt 60.
Definition LEN_STEP (c : Cls.t) : num :=
  match c with
  | Cls.Swimming => PFloat 1.38
  | _ => PFloat 0.65
  end.

Definition RUN_COEFF_1 : num := PInt 18.
Definition RUN_COEFF_2 : num := PInt 20.
Definition WLK_COEFF_1 : num := PFloat 0.035.
Definition WLK_COEFF_2 : num := PFloat 0.029.
Definition SWM_COEFF_1 : num := PFloat 1.1.
Definition SWM_COEFF_2 : num := PInt 2.

(** An instance of [Training] or of one of its subclasses, with the
    attributes its [__init__] sets. *)
Inductive training : Type :=
| Training (action duration weight : num)
| Running (action duration weight : num)
| SportsWalking (action duration weight height : num)
| Swimming (action duration weight length_pool count_pool : num).

Definition class_of (self : training) : Cls.t :=
  match self with
  | Training _ _ _ => Cls.Training
  | Running _ _ _ => Cls.Running
  | SportsWalking _ _ _ _ => Cls.SportsWalking
  | Swimming _ _ _ _ _ => Cls.Swimming
  end.

Definition action (self : training) : num :=
  match self with
  | Training a _ _ | Running a _ _ | SportsWalking a _ _ _ | Swimming a _ _ _ _ => a
  end.

Definition duration (self : training) : num :=
  match self with
  | Training _ d _ | Running _ d _ | SportsWalking _ d _ _ | Swimming _ d _ _ _ => d
  end.

Definition weight (self : training) : num :=
  match self with
  | Training _ _ w | Running _ _ w | SportsWalking _ _ w _ | Swimming _ _ w _ _ => w
  end.

Definition height (self : training) : result num :=
  match self with
  | SportsWalking _ _ _ h => Ok h
  | _ => Raise AttributeError
  end.

Definition length_pool (self : training) : result num :=
  match self with
  | Swimming _ _ _ l _ => Ok l
  | _ => Raise AttributeError
  end.

Definition count_pool (self : training) : result num :=
  match self with
  | Swimming _ _ _ _ c => Ok c
  | _ => Raise AttributeError
  end.

(** *** get_distance *)

Definition Training_get_distance (self : training) : result num :=
  steps <- py_mul (action self) (LEN_STEP (class_of self)) ;;
  py_truediv steps (M_IN_KM (class_of self)).

Definition Swimming_get_distance (self : training) : result num :=
  strokes <- py_mul (action self) (LEN_STEP (class_of self)) ;;
  py_truediv strokes (M_IN_KM (class_of self)).

(** The call [self.get_distance()]: the method of the instance's class. *)
Definition get_distance (self : training) : result num :=
  match class_of self with
  | Cls.Swimming => Swimming_get_distance self
  | _ => Training_get_distance self
  end.

(** *** get_mean_speed *)

Definition Training_get_mean_speed (self : training) : result num :=
  distance <- get_distance self ;;
  py_truediv distance (duration self).

Definition Swimming_get_mean_speed (self : training) : result num :=
  length_pool <- length_pool self ;;
  count_pool <- count_pool self ;;
  distance_in_meters <- py_mul length_pool count_pool ;;
  distance_in_km <- py_truediv distance_in_meters (M_IN_KM (class_of self)) ;;
  py_truediv distance_in_km (duration self).

Definition get_mean_speed (self : training) : result num :=
  match class_of self with
  | Cls.Swimming => Swimming_get_mean_speed self
  | _ => Training_get_mean_speed self
  end.

(** *** get_spent_calories *)

Definition Training_get_spent_calories (self : training) : result num :=
  Raise (NotImplementedError "Определить get_spent_calories").

Definition Running_get_spent_calories (self : training) : result num :=
  mean_speed <- get_mean_speed self ;;
  scaled <- py_mul RUN_COEFF_1 mean_speed ;;
  shifted <- py_sub scaled RUN_COEFF_2 ;;
  speed_and_coeff <- py_mul shifted (weight self) ;;
  duration_in_minutes <- py_mul (duration self) (MIN_IN_HOUR (class_of self)) ;;
  per_km <- py_truediv speed_and_coeff (M_IN_KM (class_of self)) ;;
  py_mul per_km duration_in_minutes.

Definition SportsWalking_get_spent_calories (self : training) : result num :=
  weight_and_coeff_1 <- py_mul WLK_COEFF_1 (weight self) ;;
  weight_and_coeff_2 <- py_mul WLK_COEFF_2 (weight self) ;;
  mean_speed <- get_mean_speed self ;;
  squared <- py_pow2 mean_speed ;;
  height <- height self ;;
  mean_speed_and_weight <- py_floordiv squared height ;;
  duration_in_minutes <- py_mul (duration self) (MIN_IN_HOUR (class_of self)) ;;
  second <- py_mul mean_speed_and_weight weight_and_coeff_2 ;;
  total <- py_add weight_and_coeff_1 second ;;
  py_mul total duration_in_minutes.

Definition Swimming_get_spent_calories (self : training) : result num :=
  mean_speed <- get_mean_speed self ;;
  mean_speed_and_coeff <- py_add mean_speed SWM_COEFF_1 ;;
  doubled <- py_mul mean_speed_and_coeff SWM_COEFF_2 ;;
  py_mul doubled (weight self).

Definition get_spent_calories (self : training) : result num :=
  match class_of self with
  | Cls.Training => Training_get_spent_calories self
  | Cls.Running => Running_get_spent_calories self
  | Cls.SportsWalking => SportsWalking_get_spent_calories self
  | Cls.Swimming => Swimming_get_spent_calories self
  end.

(** *** show_training_info *)

Definition show_training_info (self : training) : result InfoMessage.t :=
  distance <- get_distance self ;;
  speed <- get_mean_speed self ;;
  calories <- get_spent_calories self ;;
  Ok (InfoMessage.mk (Cls.name (class_of self)) (duration self)
        distance speed calories InfoMessage.default_message).

(** ** read_package *)

(** The call [cls( *data )]: the values are bound to the parameters of
    [__init__] by position; too few or too many raise [TypeError]. *)
Definition new (cls : Cls.t) (data : list num) : result training :=
  match cls, data with
  | Cls.Training, [a; d; w] => Ok (Training a d w)
  | Cls.Running, [a; d; w] => Ok (Running a d w)
  | Cls.SportsWalking, [a; d; w; h] => Ok (SportsWalking a d w h)
  | Cls.Swimming, [a; d; w; l; c] => Ok (Swimming a d w l c)
  | _, _ => Raise TypeError
  end.

Definition training_name : list (string * Cls.t) :=
  [ ("SWM", Cls.Swimming); ("RUN", Cls.Running); ("WLK", Cls.SportsWalking) ]%string.

Fixpoint get {V : Type} (d : list (string * V)) (key : string) : option V :=
  match d with
  | [] => None
  | (k, v) :: rest => if String.eqb k key then Some v else get rest key
  end.

(** [read_package], returning with its result the classes whose constructor
    it has called. *)
Definition read_package_traced (workout_type : string) (data : list num)
  : list Cls.t * result training :=
  match get training_name workout_type with
  | None => ([], Raise (NotImplementedError "Возможно выкинуть исключение"))
  | Some cls => ([cls], new cls data)
  end.

Definition read_package (workout_type : string) (data : list num) : result training :=
  snd (read_package_traced workout_type data).

(** ** main *)

(** [main] prints one line; the embedding returns it. *)
Definition main (training : training) : result string :=
  info <- show_training_info training ;;
  InfoMessage.get_message info.

Definition packages : list (string * list num) :=
  [ ("SWM", [PInt 720; PInt 1; PInt 80; PInt 25; PInt 40]);
    ("RUN", [PInt 15000; PInt 1; PInt 75]);
    ("WLK", [PInt 9000; PInt 1; PInt 75; PInt 180]) ]%string.

(** The loop of the script: the lines printed, in order, until an exception
    stops the run. *)
Fixpoint run (ps : list (string * list num)) : list string * option exn :=
  match ps with
  | [] => ([], None)
  | (workout_type, data) :: rest =>
      match (training <- read_package workout_type data ;; main training) with
      | Ok line => let (lines, e) := run rest in (line :: lines, e)
      | Raise e => ([], Some e)
      end
  end.

(** ** The formulas of the specification

    Each formula is written as one expression over Python numbers, with the
    operators lifted to computations that may raise; operands are evaluated
    left to right. *)

Module Spec.

Definition lift2 (op : num -> num -> result num) (x y : result num) : result num :=
  a <- x ;; b <- y ;; op a b.

Declare Scope spec_scope.
Delimit Scope spec_scope with spec.
Notation "x + y" := (lift2 py_add x y) : spec_scope.
Notation "x - y" := (lift2 py_sub x y) : spec_scope.
Notation "x * y" := (lift2 py_mul x y) : spec_scope.
Notation "x / y" := (lift2 py_truediv x y) : spec_scope.
Notation "x // y" := (lift2 py_floordiv x y)
  (at level 40, left associativity) : spec_scope.

Definition int (z : Z) : result num := Ok (PInt z).
Definition flt (f : float) : result num := Ok (PFloat f).
Definition squared (x : result num) : result num := a <- x ;; py_pow2 a.

(** [stepsOrStrokes * stepLengthKm / metersPerKm] *)
Definition distance (stepLength : float) (steps : num) : result num :=
  (Ok steps * flt stepLength / int 1000)%spec.

(** [stepsOrStrokes * 0.65 / 1000 / durationHours] *)
Definition base_speed (steps dur : num) : result num :=
  (Ok steps * flt 0.65 / int 1000 / Ok dur)%spec.

(** [((18 * avgSpeedKmh) - 20) * weightKg / 1000 * (durationHours * 60)] *)
Definition running_calories (steps dur w : num) : result num :=
  ((int 18 * base_speed steps dur - int 20) * Ok w / int 1000
   * (Ok dur * int 60))%spec.

(** [(0.035 * weightKg + (avgSpeedKmh^2 // heightCm) * 0.029 * weightKg)
     * (durationHours * 60)], the product of the second term grouped as the
    source groups it: the floored quotient times [0.029 * weightKg]. *)
Definition walking_calories (steps dur w h : num) : result num :=
  ((flt 0.035 * Ok w
    + squared (base_speed steps dur) // Ok h * (flt 0.029 * Ok w))
   * (Ok dur * int 60))%spec.

(** [(poolLengthM * poolLapCount / 1000) / durationHours] *)
Definition swimming_speed (dur len cnt : num) : result num :=
  (Ok len * Ok cnt / int 1000 / Ok dur)%spec.

(** [(avgSpeedKmh + 1.1) * 2 * weightKg] *)
Definition swimming_calories (dur w len cnt : num) : result num :=
  ((swimming_speed dur len cnt + flt 1.1) * int 2 * Ok w)%spec.

(** The tolerance of the concrete scenarios. *)
Definition tolerance : Q := 1 # 1000.

(** [close r q]: the computation [r] returns a finite number within
    [tolerance] of the rational [q]. *)
Definition close (r : result num) (q : Q) : bool :=
  match r with
  | Ok v =>
      match num_to_Q v with
      | Some x => Qle_bool (Qabs (x - q)) tolerance
      | None => false
      end
  | Raise _ => false
  end.

(** A scenario of the specification: the record built from [code] and
    [data] has the given distance, speed and calories, each within the
    tolerance. *)
Definition scenario (code : string) (data : list num) (dist spd cal : Q) : Prop :=
  exists r,
    read_package code data = Ok r
    /\ close (get_distance r) dist = true
    /\ close (get_mean_speed r) spd = true
    /\ close (get_spent_calories r) cal = true.

(** The dividend of the mean speed: the distance for the inherited method,
    the length of the pool laps in km for [Swimming]. *)
Definition speed_dividend (self : training) : result num :=
  match self with
  | Swimming _ _ _ len cnt => (Ok len * Ok cnt / int 1000)%spec
  | _ => get_distance self
  end.

End Spec.

(** ** The platform's pow

    On a float, [speed ** 2] calls C's [pow], and the last bit of its result
    belongs to the libm: [float_pow2] above is the instance for a libm that
    rounds the square correctly.  Here the libm's [pow(x, 2.0)] is a
    parameter, of which only faithful rounding is assumed: an error below one
    unit in the last place, as the libms in use document.  As in glibc,
    [errno] is taken to be set on overflow only. *)

Module Libm.

Import Spec.

(** The double [x * x] against the exact square of a finite [x]: [Eq] when
    the square is a double, [Lt] when the product was rounded down, [Gt] when
    it was rounded up or overflowed. *)
Definition square_rounding (x : float) : option comparison :=
  match float_to_ZE x with
  | Some (m, e) =>
      match float_to_ZE (x * x) with
      | Some (p, pe) =>
          let k := Z.min pe (2 * e) in
          Some (Z.shiftl p (pe - k) ?= Z.shiftl (m * m) (2 * e - k))
      | None => Some Gt
      end
  | None => None
  end.

(** [pow2 x] is one of the two doubles around the exact square of [x], and
    the square itself when that is a double. *)
Definition faithful (pow2 : float -> float) : Prop :=
  forall x : float,
    match square_rounding x with
    | Some Eq => pow2 x = (x * x)%float
    | Some Lt => pow2 x = (x * x)%float \/ pow2 x = next_up (x * x)
    | Some Gt => pow2 x = (x * x)%float \/ pow2 x = next_down (x * x)
    | None => True
    end.

(** The libm that rounds correctly. *)
Definition rounded (x : float) : float := (x * x)%float.

(** [float_pow] at the exponent 2.0, over the libm's [pow]. *)
Definition float_pow2 (pow2 : float -> float) (iv : float) : result num :=
  if is_nan iv then Ok (PFloat iv)
  else if is_infinity iv then Ok (PFloat (abs iv))
  else if (iv =? 0)%float then Ok (PFloat PrimFloat.zero)
  else
    let iv := abs iv in
    if (iv =? 1)%float then Ok (PFloat PrimFloat.one)
    else
      let ix := pow2 iv in
      if is_infinity ix then Raise OverflowError else Ok (PFloat ix).

Definition py_pow2 (pow2 : float -> float) (a : num) : result num :=
  match a with
  | PInt z => Ok (PInt (z * z))
  | PFloat f => float_pow2 pow2 f
  end.

(** [SportsWalking.get_spent_calories] over the libm's [pow]. *)
Definition SportsWalking_get_spent_calories (pow2 : float -> float)
    (self : training) : result num :=
  weight_and_coeff_1 <- py_mul WLK_COEFF_1 (weight self) ;;
  weight_and_coeff_2 <- py_mul WLK_COEFF_2 (weight self) ;;
  mean_speed <- get_mean_speed self ;;
  squared <- py_pow2 pow2 mean_speed ;;
  height <- height self ;;
  mean_speed_and_weight <- py_floordiv squared height ;;
  duration_in_minutes <- py_mul (duration self) (MIN_IN_HOUR (class_of self)) ;;
  second <- py_mul mean_speed_and_weight weight_and_coeff_2 ;;
  total <- py_add weight_and_coeff_1 second ;;
  py_mul total duration_in_minutes.

Definition squared (pow2 : float -> float) (x : result num) : result num :=
  a <- x ;; py_pow2 pow2 a.

(** [avgSpeedKmh^2 // heightCm], the floored term of the walking formula. *)
Definition floored_term (pow2 : float -> float) (steps dur h : num) : result num :=
  (squared pow2 (base_speed steps dur) // Ok h)%spec.

(** The walking formula of the specification, as [Spec.walking_calories],
    over the libm's [pow]. *)
Definition walking_calories (pow2 : float -> float) (steps dur w h : num)
  : result num :=
  ((flt 0.035 * Ok w + floored_term pow2 steps dur h * (flt 0.029 * Ok w))
   * (Ok dur * int 60))%spec.

End Libm.

(** ** Notions for the further properties *)

(** The values [__init__] stores in an instance, in the order of its
    parameters. *)
Definition attributes (self : training) : list num :=
  match self with
  | Training a d w => [a; d; w]
  | Running a d w => [a; d; w]
  | SportsWalking a d w h => [a; d; w; h]
  | Swimming a d w l c => [a; d; w; l; c]
  end.

(** The number of values the constructor of a class takes. *)
Definition arity (cls : Cls.t) : nat :=
  match cls with
  | Cls.Training => 3
  | Cls.Running => 3
  | Cls.SportsWalking => 4
  | Cls.Swimming => 5
  end.

(** The keys of the dispatch table. *)
Definition known_codes : list string := map fst training_name.

Definition is_float (n : num) : Prop := exists f, n = PFloat f.

(** The exceptions of the arithmetic. *)
Definition arithmetic (e : exn) : Prop :=
  e = ZeroDivisionError \/ e = OverflowError.

(** A text without braces: [str.format] has nothing to replace in it. *)
Fixpoint brace_free (s : string) : bool :=
  match s with
  | EmptyString => true
  | String c r =>
      negb (Ascii.eqb c "{") && negb (Ascii.eqb c "}") && brace_free r
  end.

(** A letter of a field name: [a-z], [A-Z] or the underscore. *)
Definition name_char (c : ascii) : bool :=
  let n := nat_of_ascii c in
  ((97 <=? n)%nat && (n <=? 122)%nat)
  || ((65 <=? n)%nat && (n <=? 90)%nat)
  || (n =? 95)%nat.

Fixpoint plain_name (s : string) : bool :=
  match s with
  | EmptyString => true
  | String c r => name_char c && plain_name r
  end.

(** One turn of the loop of the script: the line of a package, or the
    exception that leaves the loop. *)
Definition process (p : string * list num) : result string :=
  training <- read_package (fst p) (snd p) ;; main training.

(** The names [asdict] gives to [str.format]. *)
Definition field_names : list string :=
  ["training_type"; "duration"; "distance"; "speed"; "calories"; "message"]%string.

(** The lines [run] prints and the exception that stopped it. *)
Definition printed (ps : list (string * list num)) : list string := fst (run ps).
Definition stopped (ps : list (string * list num)) : option exn := snd (run ps).

(** ** Properties *)

Local Open Scope string_scope.
Local Open Scope Z_scope.

(** *** The error monad and the operators *)

(** The computation that a chain of binds runs first. *)
Ltac first_run m :=
  lazymatch m with
  | bind ?m' _ => first_run m'
  | _ => m
  end.

(** Case analysis on the first computation of the goal that is not a value. *)
Ltac run_step :=
  match goal with
  | |- context [bind ?m _] =>
      let h := first_run m in
      lazymatch h with
      | Ok _ => fail
      | Raise _ => fail
      | _ => destruct h eqn:?; cbn [bind]
      end
  end.

Lemma bind_assoc {A B C : Type} (m : result A) (f : A -> result B) (g : B -> result C) :
  (y <- (x <- m ;; f x) ;; g y) = (x <- m ;; y <- f x ;; g y).
Proof. destruct m; reflexivity. Qed.

Lemma int_to_float_small :
  int_to_float 0 = Ok 0%float
  /\ int_to_float 60 = Ok 60%float
  /\ int_to_float 1000 = Ok 1000%float.
Proof. repeat split; vm_compute; reflexivity. Qed.

(** Multiplying a number by an integer that converts to a double never
    raises: two integers multiply exactly, and a float operand needs only the
    conversion of the integer. *)
Lemma py_mul_int_total (d : num) (z : Z) (f : float) :
  int_to_float z = Ok f -> exists v, py_mul d (PInt z) = Ok v.
Proof.
  intros Hz. destruct d as [x | x]; unfold py_mul, coerce; cbn [to_float bind].
  - eexists; reflexivity.
  - rewrite Hz. eexists; reflexivity.
Qed.

Lemma duration_in_minutes_total (d : num) (c : Cls.t) :
  exists v, py_mul d (MIN_IN_HOUR c) = Ok v.
Proof. exact (py_mul_int_total d 60 _ (proj1 (proj2 int_to_float_small))). Qed.

(** A float times a number raises exactly when the number does not convert,
    whatever the float. *)
Lemma py_mul_float_l_ok (c c' : float) (w : num) (v : num) :
  py_mul (PFloat c) w = Ok v -> exists v', py_mul (PFloat c') w = Ok v'.
Proof.
  unfold py_mul, coerce; cbn [to_float bind].
  destruct (to_float w); cbn [bind]; [eexists; reflexivity | discriminate].
Qed.

(** True division returns a float. *)
Lemma py_truediv_float (x y v : num) :
  py_truediv x y = Ok v -> exists f, v = PFloat f.
Proof.
  unfold py_truediv, coerce.
  destruct x as [a | a], y as [b | b]; cbn [to_float bind].
  - unfold int_true_divide.
    destruct (b =? 0); [discriminate |].
    destruct (a =? 0); [intros [= <-]; eexists; reflexivity |].
    cbv zeta. match goal with |- context [is_infinity ?f] => destruct (is_infinity f) end;
      [discriminate | intros [= <-]; eexists; reflexivity].
  - destruct (int_to_float a); cbn [bind]; [| discriminate].
    unfold float_div. destruct (b =? 0)%float; [discriminate | intros [= <-]; eexists; reflexivity].
  - destruct (int_to_float b); cbn [bind]; [| discriminate].
    unfold float_div. match goal with |- context [(?g =? 0)%float] => destruct (g =? 0)%float end;
      [discriminate | intros [= <-]; eexists; reflexivity].
  - unfold float_div. destruct (b =? 0)%float; [discriminate | intros [= <-]; eexists; reflexivity].
Qed.

(** Dividing a float by zero, integer or float, raises [ZeroDivisionError]. *)
Lemma py_truediv_float_zero (x : float) (d : num) :
  py_is0 d = true -> py_truediv (PFloat x) d = Raise ZeroDivisionError.
Proof.
  destruct d as [z | f]; cbn [py_is0]; intros H0.
  - apply Z.eqb_eq in H0. subst z.
    unfold py_truediv, coerce; cbn [to_float bind].
    rewrite (proj1 int_to_float_small). reflexivity.
  - unfold py_truediv, coerce, float_div; cbn [to_float bind]. rewrite H0. reflexivity.
Qed.

(** Dividing by the integer 1000 raises nothing but [OverflowError]. *)
Lemma py_truediv_1000_raise (x : num) (e : exn) :
  py_truediv x (PInt 1000) = Raise e -> e = OverflowError.
Proof.
  unfold py_truediv, coerce. destruct x as [a | a]; cbn [to_float bind].
  - unfold int_true_divide. change (1000 =? 0) with false. cbv iota.
    destruct (a =? 0); [discriminate |].
    cbv zeta. match goal with |- context [is_infinity ?f] => destruct (is_infinity f) end;
      [intros [= <-]; reflexivity | discriminate].
  - rewrite (proj2 (proj2 int_to_float_small)). discriminate.
Qed.

Lemma py_mul_raise (x y : num) (e : exn) :
  py_mul x y = Raise e -> e = OverflowError.
Proof.
  unfold py_mul, coerce.
  assert (Hc : forall n e', to_float n = Raise e' -> e' = OverflowError).
  { intros [z | f] e'; cbn [to_float]; [| discriminate].
    unfold int_to_float.
    match goal with |- context [is_infinity ?f] => destruct (is_infinity f) end;
      [intros [= <-]; reflexivity | discriminate]. }
  destruct x as [a | a], y as [b | b]; cbn [to_float bind]; try discriminate.
  - destruct (int_to_float a) eqn:Ha; cbn [bind]; [discriminate |].
    intros [= <-]. exact (Hc (PInt a) _ Ha).
  - destruct (int_to_float b) eqn:Hb; cbn [bind]; [discriminate |].
    intros [= <-]. exact (Hc (PInt b) _ Hb).
Qed.

(** *** Distance *)

Lemma inherited_distance (self : training) :
  class_of self <> Cls.Swimming ->
  get_distance self = Spec.distance 0.65 (action self).
Proof. destruct self; solve [reflexivity | intros H; destruct H; reflexivity]. Qed.

(** C5.  For every swimming record the overriding [Swimming.get_distance]
    returns what the inherited [Training.get_distance] returns on that record,
    namely [action * 1.38 / 1000]: the base method reads [LEN_STEP] through the
    instance, so it sees the value [Swimming] shadows.  The call
    [self.get_distance()] therefore behaves the same with or without the
    override. *)
Theorem swimming_distance_override_redundant (a d w len cnt : num) :
  Swimming_get_distance (Swimming a d w len cnt)
  = Training_get_distance (Swimming a d w len cnt)
  /\ Training_get_distance (Swimming a d w len cnt) = Spec.distance 1.38 a
  /\ get_distance (Swimming a d w len cnt)
     = Training_get_distance (Swimming a d w len cnt)
  /\ LEN_STEP (class_of (Swimming a d w len cnt)) = PFloat 1.38
  /\ LEN_STEP Cls.Training = PFloat 0.65.
Proof. repeat split. Qed.

(** *** Running *)

Lemma running_mean_speed (a d w : num) :
  get_mean_speed (Running a d w) = Spec.base_speed a d.
Proof. reflexivity. Qed.

(** C2.  For every running record with a positive duration,
    [get_spent_calories] equals
    [((18 * speed) - 20) * weight / 1000 * (duration * 60)] with
    [speed = action * 0.65 / 1000 / duration], as a computation on Python
    numbers: the same value, or the same exception. *)
Theorem running_calories_formula (a d w : num) :
  py_gt0 d = true ->
  get_spent_calories (Running a d w) = Spec.running_calories a d w.
Proof.
  intros _.
  unfold Spec.running_calories. rewrite <- (running_mean_speed a d w).
  unfold Spec.int, Spec.lift2.
  change (get_spent_calories (Running a d w))
    with (Running_get_spent_calories (Running a d w)).
  unfold Running_get_spent_calories, RUN_COEFF_1, RUN_COEFF_2.
  cbn [weight duration class_of bind].
  destruct (duration_in_minutes_total d Cls.Running) as [dm Hdm].
  change (py_mul d (PInt 60)) with (py_mul d (MIN_IN_HOUR Cls.Running)).
  rewrite Hdm.
  destruct (get_mean_speed (Running a d w)); cbn [bind]; [| reflexivity].
  repeat (run_step; try reflexivity).
Qed.

(** *** Sports walking *)

Lemma walking_mean_speed (a d w h : num) :
  get_mean_speed (SportsWalking a d w h) = Spec.base_speed a d.
Proof. reflexivity. Qed.

Lemma walking_calories_formula (a d w h : num) :
  get_spent_calories (SportsWalking a d w h) = Spec.walking_calories a d w h.
Proof.
  unfold Spec.walking_calories, Spec.squared. rewrite <- (walking_mean_speed a d w h).
  unfold Spec.int, Spec.flt, Spec.lift2.
  change (get_spent_calories (SportsWalking a d w h))
    with (SportsWalking_get_spent_calories (SportsWalking a d w h)).
  unfold SportsWalking_get_spent_calories, WLK_COEFF_1, WLK_COEFF_2.
  cbn [weight duration height class_of bind].
  destruct (duration_in_minutes_total d Cls.SportsWalking) as [dm Hdm].
  change (py_mul d (PInt 60)) with (py_mul d (MIN_IN_HOUR Cls.SportsWalking)).
  rewrite Hdm.
  destruct (py_mul (PFloat 0.035) w) as [w1 | e] eqn:Hw1; cbn [bind].
  - destruct (py_mul_float_l_ok _ 0.029 _ _ Hw1) as [w2 Hw2]. rewrite Hw2. cbn [bind].
    repeat (run_step; try reflexivity).
  - reflexivity.
Qed.

(** *** Swimming *)

Lemma swimming_mean_speed (a d w len cnt : num) :
  get_mean_speed (Swimming a d w len cnt) = Spec.swimming_speed d len cnt.
Proof.
  unfold Spec.swimming_speed, Spec.int, Spec.lift2. cbn [bind].
  change (get_mean_speed (Swimming a d w len cnt))
    with (Swimming_get_mean_speed (Swimming a d w len cnt)).
  unfold Swimming_get_mean_speed. cbn [length_pool count_pool duration class_of bind].
  symmetry. apply bind_assoc.
Qed.

Lemma swimming_calories_formula (a d w len cnt : num) :
  get_spent_calories (Swimming a d w len cnt) = Spec.swimming_calories d w len cnt.
Proof.
  unfold Spec.swimming_calories. rewrite <- (swimming_mean_speed a d w len cnt).
  unfold Spec.int, Spec.flt, Spec.lift2.
  change (get_spent_calories (Swimming a d w len cnt))
    with (Swimming_get_spent_calories (Swimming a d w len cnt)).
  unfold Swimming_get_spent_calories, SWM_COEFF_1, SWM_COEFF_2. cbn [weight bind].
  destruct (get_mean_speed (Swimming a d w len cnt)); cbn [bind]; [| reflexivity].
  repeat (run_step; try reflexivity).
Qed.

(** C9.  Two swimming records that agree on duration, weight, pool length
    and lap count have the same mean speed and the same spent calories,
    whatever their stroke counts: [action] reaches [get_distance] only. *)
Theorem swimming_strokes_noninterference (a a' d w len cnt : num) :
  get_mean_speed (Swimming a d w len cnt) = get_mean_speed (Swimming a' d w len cnt)
  /\ get_spent_calories (Swimming a d w len cnt)
     = get_spent_calories (Swimming a' d w len cnt).
Proof.
  split.
  - rewrite !swimming_mean_speed. reflexivity.
  - rewrite !swimming_calories_formula. reflexivity.
Qed.

Lemma rounded_faithful : Libm.faithful Libm.rounded.
Proof.
  intros x. unfold Libm.rounded.
  destruct (Libm.square_rounding x) as [[ | | ] | ]; auto.
Qed.

(** With the libm that rounds correctly, the method over the libm is the
    method of the embedding above. *)
Lemma libm_rounded_walking (self : training) :
  Libm.SportsWalking_get_spent_calories Libm.rounded self
  = SportsWalking_get_spent_calories self.
Proof. reflexivity. Qed.

Lemma libm_walking_calories_formula (pow2 : float -> float) (a d w h : num) :
  Libm.SportsWalking_get_spent_calories pow2 (SportsWalking a d w h)
  = Libm.walking_calories pow2 a d w h.
Proof.
  unfold Libm.walking_calories, Libm.floored_term, Libm.squared.
  rewrite <- (walking_mean_speed a d w h).
  unfold Spec.int, Spec.flt, Spec.lift2.
  unfold Libm.SportsWalking_get_spent_calories, WLK_COEFF_1, WLK_COEFF_2.
  cbn [weight duration height class_of bind].
  destruct (duration_in_minutes_total d Cls.SportsWalking) as [dm Hdm].
  change (py_mul d (PInt 60)) with (py_mul d (MIN_IN_HOUR Cls.SportsWalking)).
  rewrite Hdm.
  destruct (py_mul (PFloat 0.035) w) as [w1 | e] eqn:Hw1; cbn [bind].
  - destruct (py_mul_float_l_ok _ 0.029 _ _ Hw1) as [w2 Hw2]. rewrite Hw2. cbn [bind].
    repeat (run_step; try reflexivity).
  - reflexivity.
Qed.

(** The square of a speed whose exact square is a double is that double, on
    every faithful libm. *)
Lemma libm_square_117 (pow2 : float -> float) :
  Libm.faithful pow2 -> Libm.py_pow2 pow2 (PFloat 117) = Ok (PFloat 13689).
Proof.
  intros Hf. pose proof (Hf 117%float) as H. vm_compute in H.
  unfold Libm.py_pow2, Libm.float_pow2.
  change (is_nan 117) with false. change (is_infinity 117) with false.
  change (117 =? 0)%float with false. cbv iota zeta.
  change (abs 117) with 117%float. change (117 =? 1)%float with false. cbv iota.
  rewrite H. reflexivity.
Qed.

(** The square of the speed of the script's walking package, 5.85 km/h, is
    one of two neighbouring doubles. *)
Lemma libm_square_585 (pow2 : float -> float) :
  Libm.faithful pow2 ->
  Libm.py_pow2 pow2 (PFloat 5.8499999999999996)
  = Ok (PFloat (5.8499999999999996 * 5.8499999999999996))
  \/ Libm.py_pow2 pow2 (PFloat 5.8499999999999996)
     = Ok (PFloat (next_down (5.8499999999999996 * 5.8499999999999996))).
Proof.
  intros Hf. pose proof (Hf 5.8499999999999996%float) as H. vm_compute in H.
  unfold Libm.py_pow2, Libm.float_pow2.
  change (is_nan 5.8499999999999996) with false.
  change (is_infinity 5.8499999999999996) with false.
  change (5.8499999999999996 =? 0)%float with false. cbv iota zeta.
  change (abs 5.8499999999999996) with 5.8499999999999996%float.
  change (5.8499999999999996 =? 1)%float with false. cbv iota.
  destruct H as [H | H]; rewrite H; [left | right]; vm_compute; reflexivity.
Qed.

(** C3.  For every walking record with a positive duration and a non-zero
    height, [get_spent_calories] equals
    [(0.035 * weight + (speed ** 2 // height) * 0.029 * weight) * (duration * 60)]
    with the squared speed floor-divided by the height, whatever the last bit
    of the libm's [pow].  For the package [("WLK", [9000, 1, 75, 180])] the
    floored term is 0 and the calories are 157.5 within the tolerance.  For
    90000 steps in half an hour at 75.5 kg and a height of 1.8 the speed is
    117, its square 13689, the floored term 7604 (the quotient 13689 / 1.8
    rounds to 7605, floor division does not) and the calories 499548.015. *)
Theorem walking_calories_floor_division (pow2 : float -> float) :
  Libm.faithful pow2 ->
  (forall a d w h : num,
      py_gt0 d = true -> py_is0 h = false ->
      Libm.SportsWalking_get_spent_calories pow2 (SportsWalking a d w h)
      = Libm.walking_calories pow2 a d w h)
  /\ Libm.floored_term pow2 (PInt 9000) (PInt 1) (PInt 180) = Ok (PFloat 0)
  /\ (exists r,
        read_package "WLK" [PInt 9000; PInt 1; PInt 75; PInt 180] = Ok r
        /\ Spec.close (Libm.SportsWalking_get_spent_calories pow2 r) 157.5 = true)
  /\ Libm.floored_term pow2 (PInt 90000) (PFloat 0.5) (PFloat 1.8) = Ok (PFloat 7604)
  /\ py_truediv (PFloat 13689) (PFloat 1.8) = Ok (PFloat 7605)
  /\ Spec.close
       (Libm.SportsWalking_get_spent_calories pow2
          (SportsWalking (PInt 90000) (PFloat 0.5) (PFloat 75.5) (PFloat 1.8)))
       499548.015 = true.
Proof.
  intros Hf.
  assert (Hs1 : Spec.base_speed (PInt 9000) (PInt 1) = Ok (PFloat 5.8499999999999996))
    by (vm_compute; reflexivity).
  assert (Hs2 : Spec.base_speed (PInt 90000) (PFloat 0.5) = Ok (PFloat 117))
    by (vm_compute; reflexivity).
  split; [intros a d w h _ _; apply libm_walking_calories_formula |].
  split.
  { unfold Libm.floored_term, Libm.squared, Spec.lift2. rewrite Hs1. cbn [bind].
    destruct (libm_square_585 pow2 Hf) as [-> | ->]; vm_compute; reflexivity. }
  split.
  { exists (SportsWalking (PInt 9000) (PInt 1) (PInt 75) (PInt 180)).
    split; [reflexivity |].
    rewrite libm_walking_calories_formula.
    unfold Libm.walking_calories, Libm.floored_term, Libm.squared, Spec.lift2.
    rewrite Hs1. cbn [bind].
    destruct (libm_square_585 pow2 Hf) as [-> | ->]; vm_compute; reflexivity. }
  split.
  { unfold Libm.floored_term, Libm.squared, Spec.lift2. rewrite Hs2. cbn [bind].
    rewrite (libm_square_117 pow2 Hf). vm_compute. reflexivity. }
  split; [vm_compute; reflexivity |].
  rewrite libm_walking_calories_formula.
  unfold Libm.walking_calories, Libm.floored_term, Libm.squared, Spec.lift2.
  rewrite Hs2. cbn [bind]. rewrite (libm_square_117 pow2 Hf). vm_compute. reflexivity.
Qed.

Lemma walking_calories_floor_division_witness :
  Libm.faithful Libm.rounded
  /\ py_gt0 (PInt 1) = true /\ py_is0 (PInt 180) = false
  /\ Libm.SportsWalking_get_spent_calories Libm.rounded
       (SportsWalking (PInt 9000) (PInt 1) (PInt 75) (PInt 180))
     = Libm.walking_calories Libm.rounded (PInt 9000) (PInt 1) (PInt 75) (PInt 180).
Proof.
  split; [exact rounded_faithful |]. split; [reflexivity |]. split; [reflexivity |].
  apply (proj1 (walking_calories_floor_division Libm.rounded rounded_faithful));
    reflexivity.
Defined.

(** The same record on the embedding with the correctly rounding libm: the
    square of 117 is exact, so the value is that of every faithful libm. *)
Example walking_calories_117 :
  get_spent_calories (SportsWalking (PInt 90000) (PFloat 0.5) (PFloat 75.5) (PFloat 1.8))
  = Ok (PFloat 499548.01500000013)
  /\ Spec.walking_calories (PInt 90000) (PFloat 0.5) (PFloat 75.5) (PFloat 1.8)
     = Ok (PFloat 499548.01500000013).
Proof. split; vm_compute; reflexivity. Qed.

(** C4.  For every swimming record with a positive duration,
    [get_mean_speed] equals [(length_pool * count_pool / 1000) / duration]: it
    is computed from the pool and does not read the distance of the strokes;
    for the package [("SWM", [720, 1, 80, 25, 40])] the speed is 1.0 and the
    calories are 336.0 within the tolerance. *)
Theorem swimming_speed_from_pool :
  (forall a d w len cnt : num,
      py_gt0 d = true ->
      get_mean_speed (Swimming a d w len cnt) = Spec.swimming_speed d len cnt)
  /\ exists r,
      read_package "SWM" [PInt 720; PInt 1; PInt 80; PInt 25; PInt 40] = Ok r
      /\ Spec.close (get_mean_speed r) 1 = true
      /\ get_spent_calories r = Spec.swimming_calories (PInt 1) (PInt 80) (PInt 25) (PInt 40)
      /\ Spec.close (get_spent_calories r) 336 = true.
Proof.
  split; [intros a d w len cnt _; apply swimming_mean_speed |].
  eexists. split; [reflexivity |].
  split; [vm_compute; reflexivity |].
  split; [apply swimming_calories_formula | vm_compute; reflexivity].
Qed.

Lemma swimming_speed_from_pool_witness :
  py_gt0 (PInt 1) = true
  /\ get_mean_speed (Swimming (PInt 720) (PInt 1) (PInt 80) (PInt 25) (PInt 40))
     = Spec.swimming_speed (PInt 1) (PInt 25) (PInt 40).
Proof.
  split; [reflexivity | apply (proj1 swimming_speed_from_pool); reflexivity].
Defined.

Lemma running_calories_formula_witness :
  py_gt0 (PInt 1) = true
  /\ get_spent_calories (Running (PInt 15000) (PInt 1) (PInt 75))
     = Spec.running_calories (PInt 15000) (PInt 1) (PInt 75).
Proof.
  split; [reflexivity | apply running_calories_formula; reflexivity].
Defined.

(** *** The scenarios *)

(** C1, as stated: the package [("RUN", [15000, 1, 75])] does not give
    707.625 kcal; the third value of the scenario is off by more than the
    tolerance. *)
Lemma running_scenario_not_707 :
  ~ Spec.scenario "RUN" [PInt 15000; PInt 1; PInt 75] 9.75 9.75 707.625.
Proof.
  intros [r [Hr [_ [_ Hc]]]].
  vm_compute in Hr. injection Hr as <-.
  vm_compute in Hc. discriminate Hc.
Qed.

(** C1, amended.  For the package [("RUN", [15000, 1, 75])] the record has
    distance 9.75 km, mean speed 9.75 km/h and spent calories 699.75 kcal,
    each within the tolerance; the calories are
    [((18 * 9.75 - 20) * 75 / 1000) * (1 * 60)]. *)
Theorem running_scenario :
  Spec.scenario "RUN" [PInt 15000; PInt 1; PInt 75] 9.75 9.75 699.75
  /\ Spec.running_calories (PInt 15000) (PInt 1) (PInt 75) = Ok (PFloat 699.75).
Proof.
  split; [| vm_compute; reflexivity].
  exists (Running (PInt 15000) (PInt 1) (PInt 75)).
  repeat split; vm_compute; reflexivity.
Qed.

(** C10.  Some running record whose fields are all strictly positive has
    strictly negative spent calories: 100 steps in one hour at 75 kg give a
    speed below 20/18 km/h and about -84.735 kcal.  The formula is not clamped
    at zero. *)
Theorem running_calories_negative :
  exists a d w v : num,
    py_gt0 a = true /\ py_gt0 d = true /\ py_gt0 w = true
    /\ Spec.close (get_mean_speed (Running a d w)) (65 # 1000) = true
    /\ get_spent_calories (Running a d w) = Ok v
    /\ py_lt0 v = true.
Proof.
  exists (PInt 100), (PInt 1), (PInt 75). eexists.
  repeat split; try (vm_compute; reflexivity).
Qed.

(** *** The message *)

(** With the default template the message is the fixed text around the class
    name as it is and the four numbers in fixed point with three decimals;
    it raises only when a number does not convert to a double. *)
Lemma get_message_default (kind : string) (dur dist spd cal : num) :
  InfoMessage.get_message
    (InfoMessage.mk kind dur dist spd cal InfoMessage.default_message)
  = (sdur <- format_f 3 dur ;;
     sdist <- format_f 3 dist ;;
     sspd <- format_f 3 spd ;;
     scal <- format_f 3 cal ;;
     Ok ("Тип тренировки: " ++ kind
         ++ "; Длительность: " ++ sdur
         ++ " ч.; Дистанция: " ++ sdist
         ++ " км; Ср. скорость: " ++ sspd
         ++ " км/ч; Потрачено ккал: " ++ scal ++ ".")).
Proof.
  unfold InfoMessage.get_message, format, InfoMessage.default_message.
  cbv -[format_f bind]. cbn [bind].
  destruct (format_f 3 dur); cbn [bind]; [| reflexivity].
  destruct (format_f 3 dist); cbn [bind]; [| reflexivity].
  destruct (format_f 3 spd); cbn [bind]; [| reflexivity].
  destruct (format_f 3 cal); cbn [bind]; reflexivity.
Qed.

(** C6.  For the package [("SWM", [720, 1, 80, 25, 40])] the message of the
    computed summary is exactly the line below: the kind is the class name
    and every number is printed in fixed point with three decimals, the
    distance 0.9936 as 0.994. *)
Theorem swimming_message :
  exists r info,
    read_package "SWM" [PInt 720; PInt 1; PInt 80; PInt 25; PInt 40] = Ok r
    /\ show_training_info r = Ok info
    /\ InfoMessage.training_type info = "Swimming"
    /\ Spec.close (Ok (InfoMessage.distance info)) 0.9936 = true
    /\ format_f 3 (InfoMessage.distance info) = Ok "0.994"
    /\ InfoMessage.get_message info
       = Ok ("Тип тренировки: Swimming; Длительность: 1.000 ч.; "
             ++ "Дистанция: 0.994 км; Ср. скорость: 1.000 км/ч; "
             ++ "Потрачено ккал: 336.000.")
    /\ main r = InfoMessage.get_message info.
Proof.
  do 2 eexists.
  split; [reflexivity |].
  split; [vm_compute; reflexivity |].
  repeat split; vm_compute; reflexivity.
Qed.

(** *** The dispatcher *)

Lemma get_training_name_none (code : string) :
  ~ In code ["SWM"; "RUN"; "WLK"] -> get training_name code = None.
Proof.
  intros Hn. unfold training_name. cbn [get].
  destruct (String.eqb_spec "SWM" code) as [E | _]; [subst code; destruct Hn; cbn; tauto |].
  destruct (String.eqb_spec "RUN" code) as [E | _]; [subst code; destruct Hn; cbn; tauto |].
  destruct (String.eqb_spec "WLK" code) as [E | _]; [subst code; destruct Hn; cbn; tauto |].
  reflexivity.
Qed.

(** X7.  A known code with the wrong number of values reaches the
    constructor, which raises [TypeError]. *)
Lemma read_package_arity (code : string) (cls : Cls.t) (data : list num) :
  get training_name code = Some cls ->
  length data <> match cls with
                 | Cls.SportsWalking => 4
                 | Cls.Swimming => 5
                 | _ => 3
                 end%nat ->
  read_package_traced code data = ([cls], Raise TypeError).
Proof.
  intros Hc Hlen. unfold read_package_traced. rewrite Hc. f_equal.
  destruct cls;
    repeat (destruct data as [| ? data]; try reflexivity);
    exfalso; apply Hlen; reflexivity.
Qed.

(** C7.  For every code outside SWM, RUN and WLK and every sequence of
    values, [read_package] raises the [NotImplementedError] of the unsupported
    workout type without calling any constructor; for each of the three codes
    it calls the constructor of the matching class, which binds the values by
    position. *)
Theorem read_package_dispatch :
  (forall (code : string) (data : list num),
      ~ In code ["SWM"; "RUN"; "WLK"] ->
      read_package_traced code data
      = ([], Raise (NotImplementedError "Возможно выкинуть исключение"))
      /\ forall r, read_package code data <> Ok r)
  /\ (forall a d w : num,
        read_package_traced "RUN" [a; d; w] = ([Cls.Running], Ok (Running a d w)))
  /\ (forall a d w h : num,
        read_package_traced "WLK" [a; d; w; h]
        = ([Cls.SportsWalking], Ok (SportsWalking a d w h)))
  /\ (forall a d w len cnt : num,
        read_package_traced "SWM" [a; d; w; len; cnt]
        = ([Cls.Swimming], Ok (Swimming a d w len cnt)))
  /\ (forall (code : string) (data : list num),
        In code ["SWM"; "RUN"; "WLK"] ->
        exists cls, get training_name code = Some cls
                    /\ read_package code data = new cls data).
Proof.
  split.
  { intros code data Hn. unfold read_package, read_package_traced.
    rewrite (get_training_name_none code Hn). split; [reflexivity | discriminate]. }
  repeat split.
  intros code data Hin. unfold read_package, read_package_traced.
  cbn in Hin. destruct Hin as [<- | [<- | [<- | []]]]; eexists; split; reflexivity.
Qed.

Lemma read_package_dispatch_witness :
  read_package_traced "XYZ" [PInt 720; PInt 1; PInt 80]
  = ([], Raise (NotImplementedError "Возможно выкинуть исключение")).
Proof.
  apply (proj1 read_package_dispatch).
  intros [H | [H | [H | []]]]; discriminate H.
Defined.

(** *** Zero duration *)

Lemma mean_speed_dividend (self : training) :
  get_mean_speed self
  = (dividend <- Spec.speed_dividend self ;; py_truediv dividend (duration self)).
Proof.
  destruct self as [a d w | a d w | a d w h | a d w len cnt]; try reflexivity.
  rewrite swimming_mean_speed. reflexivity.
Qed.

Lemma distance_dividend (len : float) (a : num) :
  (forall v, Spec.distance len a = Ok v -> exists f, v = PFloat f)
  /\ (forall e, Spec.distance len a = Raise e -> e = OverflowError).
Proof.
  unfold Spec.distance, Spec.int, Spec.flt, Spec.lift2. cbn [bind].
  destruct (py_mul a (PFloat len)) as [m | e0] eqn:Hm; cbn [bind]; split.
  - intros v. apply py_truediv_float.
  - intros e. apply py_truediv_1000_raise.
  - discriminate.
  - intros e [= <-]. exact (py_mul_raise _ _ _ Hm).
Qed.

Lemma speed_dividend_cases (self : training) :
  (forall v, Spec.speed_dividend self = Ok v -> exists f, v = PFloat f)
  /\ (forall e, Spec.speed_dividend self = Raise e -> e = OverflowError).
Proof.
  destruct self as [a d w | a d w | a d w h | a d w len cnt];
    try apply distance_dividend.
  unfold Spec.speed_dividend, Spec.int, Spec.lift2. cbn [bind].
  destruct (py_mul len cnt) as [m | e0] eqn:Hm; cbn [bind]; split.
  - intros v. apply py_truediv_float.
  - intros e. apply py_truediv_1000_raise.
  - discriminate.
  - intros e [= <-]. exact (py_mul_raise _ _ _ Hm).
Qed.

(** C8, as stated: a record with a zero duration whose speed does not fail
    with a division by zero.  The step count does not convert to a double, and
    [action * LEN_STEP] raises before the division is reached. *)
Lemma zero_duration_overflow :
  duration (Running (PInt (2 ^ 1024)) (PInt 0) (PInt 75)) = PInt 0
  /\ get_mean_speed (Running (PInt (2 ^ 1024)) (PInt 0) (PInt 75))
     = Raise OverflowError
  /\ get_mean_speed (Running (PInt (2 ^ 1024)) (PInt 0) (PInt 75))
     <> Raise ZeroDivisionError.
Proof.
  assert (H : get_mean_speed (Running (PInt (2 ^ 1024)) (PInt 0) (PInt 75))
              = Raise OverflowError) by (vm_compute; reflexivity).
  split; [reflexivity |]. split; [exact H | rewrite H; discriminate].
Qed.

(** C8, amended.  For every record with a zero duration, of any class,
    [get_mean_speed] returns no value: it raises [ZeroDivisionError] whenever
    its dividend evaluates (the distance, or for swimming the pool length
    times the lap count over 1000), and [OverflowError] exactly when the
    computation of the dividend overflows. *)
Theorem mean_speed_zero_duration (self : training) :
  py_is0 (duration self) = true ->
  get_mean_speed self
  = if is_ok (Spec.speed_dividend self)
    then Raise ZeroDivisionError
    else Raise OverflowError.
Proof.
  intros H0. rewrite mean_speed_dividend.
  destruct (speed_dividend_cases self) as [Hok Hraise].
  destruct (Spec.speed_dividend self) as [v | e]; cbn [bind is_ok].
  - destruct (Hok v eq_refl) as [f ->]. apply py_truediv_float_zero, H0.
  - rewrite (Hraise e eq_refl). reflexivity.
Qed.

Lemma mean_speed_zero_duration_witness :
  py_is0 (duration (Swimming (PInt 720) (PInt 0) (PInt 80) (PInt 25) (PInt 40))) = true
  /\ get_mean_speed (Swimming (PInt 720) (PInt 0) (PInt 80) (PInt 25) (PInt 40))
     = Raise ZeroDivisionError.
Proof.
  split; [reflexivity |].
  rewrite (mean_speed_zero_duration
             (Swimming (PInt 720) (PInt 0) (PInt 80) (PInt 25) (PInt 40)) eq_refl).
  reflexivity.
Defined.

(** Where the dividend overflows and where it does not, at a zero duration:
    an attribute beyond the doubles matters only if the dividend converts it
    (the weight is not read, and a pool length of 2^1030 is divided by 1000 as
    an integer), and two attributes within the doubles overflow when their
    exact product, over 1000, is beyond them. *)
Example zero_duration_boundary :
  get_mean_speed (Running (PInt 15000) (PInt 0) (PInt (2 ^ 1024)))
  = Raise ZeroDivisionError
  /\ get_mean_speed (Swimming (PInt 720) (PInt 0) (PInt 80) (PInt (2 ^ 1030)) (PInt 1))
     = Raise ZeroDivisionError
  /\ get_mean_speed
       (Swimming (PInt 720) (PInt 0) (PInt 80) (PInt (2 ^ 600)) (PInt (2 ^ 600)))
     = Raise OverflowError
  /\ get_mean_speed (Swimming (PInt 720) (PInt 0) (PInt 80) (PInt (2 ^ 1030)) (PFloat 1))
     = Raise OverflowError.
Proof. repeat split; vm_compute; reflexivity. Qed.

(** X11.  With float fields the dividend always evaluates: a zero duration
    then raises [ZeroDivisionError] for every class. *)
Lemma mean_speed_zero_duration_floats (self : training) :
  py_is0 (duration self) = true ->
  match self with
  | Swimming _ _ _ (PFloat _) (PFloat _) => True
  | Swimming _ _ _ _ _ => False
  | _ => match action self with PFloat _ => True | PInt _ => False end
  end ->
  get_mean_speed self = Raise ZeroDivisionError.
Proof.
  intros H0 Hf. rewrite mean_speed_dividend.
  assert (Hd : exists f, Spec.speed_dividend self = Ok (PFloat f)).
  { destruct self as [a d w | a d w | a d w h | a d w l c]; cbn [action] in Hf;
      try (destruct a; [contradiction | eexists; reflexivity]).
    destruct l; [contradiction |].
    destruct c; [contradiction | eexists; reflexivity]. }
  destruct Hd as [f ->]. apply py_truediv_float_zero, H0.
Qed.

(** *** The script *)

(** The three packages of the script print three lines and raise nothing. *)
Example run_packages :
  run packages
  = ([ "Тип тренировки: Swimming; Длительность: 1.000 ч.; Дистанция: 0.994 км; "
       ++ "Ср. скорость: 1.000 км/ч; Потрачено ккал: 336.000.";
       "Тип тренировки: Running; Длительность: 1.000 ч.; Дистанция: 9.750 км; "
       ++ "Ср. скорость: 9.750 км/ч; Потрачено ккал: 699.750.";
       "Тип тренировки: SportsWalking; Длительность: 1.000 ч.; Дистанция: 5.850 км; "
       ++ "Ср. скорость: 5.850 км/ч; Потрачено ккал: 157.500." ],
     None).
Proof. vm_compute. reflexivity. Qed.

(** ** Further properties *)

(** *** Exceptions and result types of the operators *)

Lemma to_float_raise (n : num) (e : exn) :
  to_float n = Raise e -> e = OverflowError.
Proof.
  destruct n as [z | f]; cbn [to_float]; [| discriminate].
  unfold int_to_float.
  match goal with |- context [is_infinity ?f] => destruct (is_infinity f) end;
    [intros [= <-]; reflexivity | discriminate].
Qed.

Section Coerce.

Variable fz : Z -> Z -> result num.
Variable ff : float -> float -> result num.

(** What holds of the exceptions of both branches and of [OverflowError]
    holds of the exceptions of the operator. *)
Lemma coerce_raise (P : exn -> Prop) :
  P OverflowError ->
  (forall a b e, fz a b = Raise e -> P e) ->
  (forall a b e, ff a b = Raise e -> P e) ->
  forall x y e, coerce fz ff x y = Raise e -> P e.
Proof.
  intros Hov Hz Hf x y e. unfold coerce.
  destruct x as [a | a], y as [b | b]; cbn [to_float bind].
  - apply Hz.
  - destruct (int_to_float a) eqn:Ha; cbn [bind]; [apply Hf |].
    intros [= <-]. rewrite (to_float_raise (PInt a) _ Ha). exact Hov.
  - destruct (int_to_float b) eqn:Hb; cbn [bind]; [apply Hf |].
    intros [= <-]. rewrite (to_float_raise (PInt b) _ Hb). exact Hov.
  - apply Hf.
Qed.

Hypothesis ff_float : forall a b v, ff a b = Ok v -> is_float v.

(** With a float on either side the float branch computes the result. *)
Lemma coerce_float_l (x : float) (y v : num) :
  coerce fz ff (PFloat x) y = Ok v -> is_float v.
Proof.
  unfold coerce. cbn [to_float bind].
  destruct y as [b | b]; cbn [to_float bind].
  - destruct (int_to_float b); cbn [bind]; [apply ff_float | discriminate].
  - apply ff_float.
Qed.

Lemma coerce_float_r (x : num) (y : float) (v : num) :
  coerce fz ff x (PFloat y) = Ok v -> is_float v.
Proof.
  unfold coerce. destruct x as [a | a]; cbn [to_float bind].
  - destruct (int_to_float a); cbn [bind]; [apply ff_float | discriminate].
  - apply ff_float.
Qed.

(** A float on the left makes the right operand convert. *)
Lemma coerce_float_l_converts (x : float) (y v : num) :
  coerce fz ff (PFloat x) y = Ok v -> exists f, to_float y = Ok f.
Proof.
  unfold coerce. cbn [to_float bind].
  destruct y as [b | b]; cbn [to_float bind].
  - destruct (int_to_float b); cbn [bind]; [eexists; reflexivity | discriminate].
  - eexists; reflexivity.
Qed.

End Coerce.

Lemma py_add_raise (x y : num) (e : exn) : py_add x y = Raise e -> e = OverflowError.
Proof.
  apply (coerce_raise _ _ (fun e => e = OverflowError)); [reflexivity | discriminate ..].
Qed.

Lemma py_sub_raise (x y : num) (e : exn) : py_sub x y = Raise e -> e = OverflowError.
Proof.
  apply (coerce_raise _ _ (fun e => e = OverflowError)); [reflexivity | discriminate ..].
Qed.

Lemma py_truediv_raise (x y : num) (e : exn) : py_truediv x y = Raise e -> arithmetic e.
Proof.
  apply (coerce_raise _ _ arithmetic); [right; reflexivity | |].
  - intros a b e'. unfold int_true_divide.
    destruct (b =? 0); [intros [= <-]; left; reflexivity |].
    destruct (a =? 0); [discriminate |]. cbv zeta.
    match goal with |- context [is_infinity ?f] => destruct (is_infinity f) end;
      [intros [= <-]; right; reflexivity | discriminate].
  - intros a b e'. unfold float_div.
    destruct (b =? 0)%float; [intros [= <-]; left; reflexivity | discriminate].
Qed.

Lemma py_floordiv_raise (x y : num) (e : exn) : py_floordiv x y = Raise e -> arithmetic e.
Proof.
  apply (coerce_raise _ _ arithmetic); [right; reflexivity | |].
  - intros a b e'. unfold int_floor_div.
    destruct (b =? 0); [intros [= <-]; left; reflexivity | discriminate].
  - intros a b e'. unfold float_floor_div.
    destruct (b =? 0)%float; [intros [= <-]; left; reflexivity |]. cbv zeta.
    match goal with |- context [if negb ?c then Ok _ else _] => destruct c end;
      discriminate.
Qed.

Lemma py_pow2_raise (x : num) (e : exn) : py_pow2 x = Raise e -> e = OverflowError.
Proof.
  destruct x as [z | f]; cbn [py_pow2]; [discriminate |]. unfold float_pow2.
  destruct (is_nan f); [discriminate |].
  destruct (is_infinity f); [discriminate |].
  destruct (f =? 0)%float; [discriminate |]. cbv zeta.
  destruct (abs f =? 1)%float; [discriminate |].
  destruct (is_infinity (abs f * abs f)); [intros [= <-]; reflexivity | discriminate].
Qed.

Lemma float_arith_float (op : float -> float -> float) (a b : float) (v : num) :
  Ok (PFloat (op a b)) = Ok v -> is_float v.
Proof. intros [= <-]. eexists; reflexivity. Qed.

Lemma py_mul_float_l (x : float) (y v : num) : py_mul (PFloat x) y = Ok v -> is_float v.
Proof. apply coerce_float_l. intros a b. apply (float_arith_float mul). Qed.

Lemma py_add_float_l (x : float) (y v : num) : py_add (PFloat x) y = Ok v -> is_float v.
Proof. apply coerce_float_l. intros a b. apply (float_arith_float add). Qed.

Lemma py_sub_float_l (x : float) (y v : num) : py_sub (PFloat x) y = Ok v -> is_float v.
Proof. apply coerce_float_l. intros a b. apply (float_arith_float sub). Qed.

Lemma py_mul_float_r (x : num) (y : float) (v : num) : py_mul x (PFloat y) = Ok v -> is_float v.
Proof. apply coerce_float_r. intros a b. apply (float_arith_float mul). Qed.

Lemma py_truediv_is_float (x y v : num) : py_truediv x y = Ok v -> is_float v.
Proof. apply py_truediv_float. Qed.

(** *** The three statistics: result type and exceptions *)

(** Close a goal [arithmetic e] from the failed step recorded in the context. *)
Ltac blame :=
  match goal with
  | H : py_mul _ _ = Raise ?e |- arithmetic ?e => right; exact (py_mul_raise _ _ _ H)
  | H : py_add _ _ = Raise ?e |- arithmetic ?e => right; exact (py_add_raise _ _ _ H)
  | H : py_sub _ _ = Raise ?e |- arithmetic ?e => right; exact (py_sub_raise _ _ _ H)
  | H : py_pow2 _ = Raise ?e |- arithmetic ?e => right; exact (py_pow2_raise _ _ H)
  | H : py_truediv _ _ = Raise ?e |- arithmetic ?e => exact (py_truediv_raise _ _ _ H)
  | H : py_floordiv _ _ = Raise ?e |- arithmetic ?e => exact (py_floordiv_raise _ _ _ H)
  end.

(** Run the computation of the hypothesis-free goal [m = Raise e -> arithmetic e]
    step by step, blaming the step that fails. *)
Ltac run_blame :=
  repeat (run_step; [| intros [= <-]; blame]);
  intros H; first [discriminate H | blame].

Lemma get_distance_cases (self : training) :
  (forall v, get_distance self = Ok v -> is_float v)
  /\ (forall e, get_distance self = Raise e -> e = OverflowError).
Proof. destruct self; apply distance_dividend. Qed.

Lemma get_mean_speed_cases (self : training) :
  (forall v, get_mean_speed self = Ok v -> is_float v)
  /\ (forall e, get_mean_speed self = Raise e -> arithmetic e).
Proof.
  rewrite mean_speed_dividend.
  destruct (speed_dividend_cases self) as [_ Hraise].
  destruct (Spec.speed_dividend self) as [x | e0]; cbn [bind]; split.
  - intros v. apply py_truediv_is_float.
  - intros e. apply py_truediv_raise.
  - discriminate.
  - intros e [= <-]. right. exact (Hraise _ eq_refl).
Qed.

Lemma get_spent_calories_raise (self : training) (e : exn) :
  class_of self <> Cls.Training ->
  get_spent_calories self = Raise e -> arithmetic e.
Proof.
  intros Hc.
  destruct self as [a d w | a d w | a d w h | a d w l c];
    [destruct Hc; reflexivity | | |].
  - change (get_spent_calories (Running a d w))
      with (Running_get_spent_calories (Running a d w)).
    unfold Running_get_spent_calories. cbn [weight duration class_of].
    destruct (get_mean_speed (Running a d w)) as [s | e0] eqn:Hs; cbn [bind];
      [| intros [= <-]; exact (proj2 (get_mean_speed_cases _) _ Hs)].
    run_blame.
  - change (get_spent_calories (SportsWalking a d w h))
      with (SportsWalking_get_spent_calories (SportsWalking a d w h)).
    unfold SportsWalking_get_spent_calories. cbn [weight duration height class_of].
    run_step; [| intros [= <-]; blame].
    run_step; [| intros [= <-]; blame].
    destruct (get_mean_speed (SportsWalking a d w h)) as [s | e0] eqn:Hs; cbn [bind];
      [| intros [= <-]; exact (proj2 (get_mean_speed_cases _) _ Hs)].
    run_blame.
  - change (get_spent_calories (Swimming a d w l c))
      with (Swimming_get_spent_calories (Swimming a d w l c)).
    unfold Swimming_get_spent_calories. cbn [weight].
    destruct (get_mean_speed (Swimming a d w l c)) as [s | e0] eqn:Hs; cbn [bind];
      [| intros [= <-]; exact (proj2 (get_mean_speed_cases _) _ Hs)].
    run_blame.
Qed.

Lemma get_spent_calories_float (self : training) (v : num) :
  get_spent_calories self = Ok v -> is_float v.
Proof.
  destruct self as [a d w | a d w | a d w h | a d w l c].
  - discriminate.
  - change (get_spent_calories (Running a d w))
      with (Running_get_spent_calories (Running a d w)).
    unfold Running_get_spent_calories. cbn [weight duration class_of].
    repeat (run_step; [| discriminate]).
    match goal with H : py_truediv _ _ = Ok ?x |- _ =>
      destruct (py_truediv_is_float _ _ _ H) as [f ->] end.
    apply py_mul_float_l.
  - change (get_spent_calories (SportsWalking a d w h))
      with (SportsWalking_get_spent_calories (SportsWalking a d w h)).
    unfold SportsWalking_get_spent_calories, WLK_COEFF_1. cbn [weight duration height class_of].
    destruct (py_mul (PFloat 0.035) w) as [w1 | ] eqn:Hw1; cbn [bind]; [| discriminate].
    destruct (py_mul_float_l _ _ _ Hw1) as [f1 ->].
    repeat (run_step; [| discriminate]).
    match goal with H : py_add (PFloat f1) _ = Ok ?x |- _ =>
      destruct (py_add_float_l _ _ _ H) as [f ->] end.
    apply py_mul_float_l.
  - change (get_spent_calories (Swimming a d w l c))
      with (Swimming_get_spent_calories (Swimming a d w l c)).
    unfold Swimming_get_spent_calories. cbn [weight].
    destruct (get_mean_speed (Swimming a d w l c)) as [s | ] eqn:Hs; cbn [bind];
      [| discriminate].
    destruct (proj1 (get_mean_speed_cases _) _ Hs) as [fs ->].
    destruct (py_add (PFloat fs) SWM_COEFF_1) as [m | ] eqn:Hm; cbn [bind]; [| discriminate].
    destruct (py_add_float_l _ _ _ Hm) as [fm ->].
    destruct (py_mul (PFloat fm) SWM_COEFF_2) as [t | ] eqn:Ht; cbn [bind]; [| discriminate].
    destruct (py_mul_float_l _ _ _ Ht) as [ft ->].
    apply py_mul_float_l.
Qed.

(** A mean speed that evaluates has divided a float by the duration, so the
    duration converts to a double. *)
Lemma mean_speed_duration_converts (self : training) (v : num) :
  get_mean_speed self = Ok v -> exists f, to_float (duration self) = Ok f.
Proof.
  rewrite mean_speed_dividend.
  destruct (speed_dividend_cases self) as [Hok _].
  destruct (Spec.speed_dividend self) as [x | e0]; cbn [bind]; [| discriminate].
  destruct (Hok x eq_refl) as [fx ->].
  apply coerce_float_l_converts.
Qed.

(** X1.  Whenever they return, the distance, the mean speed and the spent
    calories are floats, for every class and also when every attribute is an
    integer; the distance fails only with [OverflowError], the speed and
    the calories of the three subclasses only with [ZeroDivisionError] or
    [OverflowError]. *)
Theorem statistics_float_or_arithmetic (self : training) :
  (forall v, get_distance self = Ok v -> is_float v)
  /\ (forall v, get_mean_speed self = Ok v -> is_float v)
  /\ (forall v, get_spent_calories self = Ok v -> is_float v)
  /\ (forall e, get_distance self = Raise e -> e = OverflowError)
  /\ (forall e, get_mean_speed self = Raise e -> arithmetic e)
  /\ (forall e, class_of self <> Cls.Training ->
                get_spent_calories self = Raise e -> arithmetic e).
Proof.
  split; [apply get_distance_cases |].
  split; [apply get_mean_speed_cases |].
  split; [intros v; apply get_spent_calories_float |].
  split; [apply get_distance_cases |].
  split; [apply get_mean_speed_cases |].
  intros e Hc. apply get_spent_calories_raise, Hc.
Qed.

Lemma statistics_float_or_arithmetic_witness :
  class_of (Running (PInt 15000) (PInt 0) (PInt 75)) <> Cls.Training
  /\ get_spent_calories (Running (PInt 15000) (PInt 0) (PInt 75))
     = Raise ZeroDivisionError
  /\ arithmetic ZeroDivisionError.
Proof.
  split; [discriminate |]. split; [vm_compute; reflexivity |].
  apply (proj2 (proj2 (proj2 (proj2 (proj2
           (statistics_float_or_arithmetic (Running (PInt 15000) (PInt 0) (PInt 75)))))))).
  - discriminate.
  - vm_compute. reflexivity.
Defined.

(** *** The message and the line [main] prints *)

Lemma format_f_converts (p : nat) (n : num) (f : float) :
  to_float n = Ok f -> format_f p n = Ok (format_float_f p f).
Proof. intros H. unfold format_f. rewrite H. reflexivity. Qed.

Lemma format_f_raise (p : nat) (n : num) (e : exn) :
  format_f p n = Raise e -> e = OverflowError.
Proof.
  unfold format_f. destruct (to_float n) eqn:Hn; cbn [bind]; [discriminate |].
  intros [= <-]. exact (to_float_raise _ _ Hn).
Qed.

(** X2.  With the default template [get_message] fails only with
    [OverflowError], and only when a number does not convert to a double;
    when the four numbers convert it returns the fixed text around the kind,
    copied as it is, and the numbers with three decimals. *)
Theorem get_message_default_total (kind : string) (dur dist spd cal : num) :
  (forall e,
      InfoMessage.get_message
        (InfoMessage.mk kind dur dist spd cal InfoMessage.default_message) = Raise e ->
      e = OverflowError)
  /\ (forall fdur fdist fspd fcal,
        to_float dur = Ok fdur -> to_float dist = Ok fdist ->
        to_float spd = Ok fspd -> to_float cal = Ok fcal ->
        InfoMessage.get_message
          (InfoMessage.mk kind dur dist spd cal InfoMessage.default_message)
        = Ok ("Тип тренировки: " ++ kind
              ++ "; Длительность: " ++ format_float_f 3 fdur
              ++ " ч.; Дистанция: " ++ format_float_f 3 fdist
              ++ " км; Ср. скорость: " ++ format_float_f 3 fspd
              ++ " км/ч; Потрачено ккал: " ++ format_float_f 3 fcal ++ ".")).
Proof.
  rewrite get_message_default. split.
  - intros e.
    destruct (format_f 3 dur) eqn:H1; cbn [bind];
      [| intros [= <-]; exact (format_f_raise _ _ _ H1)].
    destruct (format_f 3 dist) eqn:H2; cbn [bind];
      [| intros [= <-]; exact (format_f_raise _ _ _ H2)].
    destruct (format_f 3 spd) eqn:H3; cbn [bind];
      [| intros [= <-]; exact (format_f_raise _ _ _ H3)].
    destruct (format_f 3 cal) eqn:H4; cbn [bind];
      [discriminate | intros [= <-]; exact (format_f_raise _ _ _ H4)].
  - intros fdur fdist fspd fcal H1 H2 H3 H4.
    rewrite (format_f_converts 3 _ _ H1), (format_f_converts 3 _ _ H2),
      (format_f_converts 3 _ _ H3), (format_f_converts 3 _ _ H4).
    reflexivity.
Qed.

Lemma get_message_default_total_witness :
  InfoMessage.get_message
    (InfoMessage.mk "{Run}" (PInt 2) (PFloat 0.5) (PInt (-3)) (PFloat 1.0625)
       InfoMessage.default_message)
  = Ok ("Тип тренировки: {Run}; Длительность: 2.000 ч.; Дистанция: 0.500 км; "
        ++ "Ср. скорость: -3.000 км/ч; Потрачено ккал: 1.062.").
Proof.
  apply (proj2 (get_message_default_total "{Run}" (PInt 2) (PFloat 0.5) (PInt (-3))
                  (PFloat 1.0625)) 2%float 0.5%float (-3)%float 1.0625%float);
    vm_compute; reflexivity.
Defined.

(** X3.  Formatting adds no failure: whenever [show_training_info] returns,
    [main] prints the line made of the class name and of the duration, the
    distance, the mean speed and the spent calories with three decimals, the
    last three being the floats the methods return. *)
Theorem main_prints_statistics (self : training) (info : InfoMessage.t) :
  show_training_info self = Ok info ->
  exists fdur fdist fspd fcal,
    to_float (duration self) = Ok fdur
    /\ get_distance self = Ok (PFloat fdist)
    /\ get_mean_speed self = Ok (PFloat fspd)
    /\ get_spent_calories self = Ok (PFloat fcal)
    /\ main self
       = Ok ("Тип тренировки: " ++ Cls.name (class_of self)
             ++ "; Длительность: " ++ format_float_f 3 fdur
             ++ " ч.; Дистанция: " ++ format_float_f 3 fdist
             ++ " км; Ср. скорость: " ++ format_float_f 3 fspd
             ++ " км/ч; Потрачено ккал: " ++ format_float_f 3 fcal ++ ".").
Proof.
  intros H. unfold main. rewrite H. cbn [bind]. revert H.
  unfold show_training_info.
  destruct (get_distance self) as [vd | ] eqn:Hd; cbn [bind]; [| discriminate].
  destruct (get_mean_speed self) as [vs | ] eqn:Hs; cbn [bind]; [| discriminate].
  destruct (get_spent_calories self) as [vc | ] eqn:Hc; cbn [bind]; [| discriminate].
  intros [= <-].
  destruct (proj1 (get_distance_cases self) _ Hd) as [fdist ->].
  destruct (proj1 (get_mean_speed_cases self) _ Hs) as [fspd ->].
  destruct (get_spent_calories_float self _ Hc) as [fcal ->].
  destruct (mean_speed_duration_converts self _ Hs) as [fdur Hdur].
  exists fdur, fdist, fspd, fcal. repeat (split; [assumption || reflexivity |]).
  rewrite get_message_default.
  rewrite (format_f_converts 3 _ _ Hdur). reflexivity.
Qed.

Lemma main_prints_statistics_witness :
  exists fdur fdist fspd fcal,
    to_float (duration (Running (PInt 15000) (PInt 1) (PInt 75))) = Ok fdur
    /\ get_distance (Running (PInt 15000) (PInt 1) (PInt 75)) = Ok (PFloat fdist)
    /\ get_mean_speed (Running (PInt 15000) (PInt 1) (PInt 75)) = Ok (PFloat fspd)
    /\ get_spent_calories (Running (PInt 15000) (PInt 1) (PInt 75)) = Ok (PFloat fcal)
    /\ main (Running (PInt 15000) (PInt 1) (PInt 75))
       = Ok ("Тип тренировки: " ++ Cls.name (class_of (Running (PInt 15000) (PInt 1) (PInt 75)))
             ++ "; Длительность: " ++ format_float_f 3 fdur
             ++ " ч.; Дистанция: " ++ format_float_f 3 fdist
             ++ " км; Ср. скорость: " ++ format_float_f 3 fspd
             ++ " км/ч; Потрачено ккал: " ++ format_float_f 3 fcal ++ ".").
Proof.
  eapply (main_prints_statistics (Running (PInt 15000) (PInt 1) (PInt 75))).
  vm_compute. reflexivity.
Defined.

(** *** Zero duration, zero height, the base class *)

Lemma mean_speed_zero_raises (self : training) :
  py_is0 (duration self) = true -> exists e, get_mean_speed self = Raise e.
Proof.
  intros H0. rewrite mean_speed_dividend.
  destruct (speed_dividend_cases self) as [Hok _].
  destruct (Spec.speed_dividend self) as [x | e0]; cbn [bind]; [| eexists; reflexivity].
  destruct (Hok x eq_refl) as [fx ->].
  rewrite (py_truediv_float_zero fx _ H0). eexists; reflexivity.
Qed.

(** A computation that starts with a failing step fails. *)
Lemma bind_raises {A B : Type} (m : result A) (k : A -> result B) :
  (exists e, m = Raise e) -> exists e, (x <- m ;; k x) = Raise e.
Proof. intros [e ->]. exists e. reflexivity. Qed.

Lemma bind_raises_after {A B : Type} (m : result A) (k : A -> result B) :
  (forall a, exists e, k a = Raise e) -> exists e, (x <- m ;; k x) = Raise e.
Proof.
  intros Hk. destruct m as [a | e]; cbn [bind]; [apply Hk | eexists; reflexivity].
Qed.

(** X4.  With a zero duration, integer or float, nothing is reported for any
    class: the spent calories, the summary and the line of [main] all fail,
    as the mean speed does. *)
Theorem zero_duration_no_report (self : training) :
  py_is0 (duration self) = true ->
  (exists e, get_spent_calories self = Raise e)
  /\ (exists e, show_training_info self = Raise e)
  /\ (exists e, main self = Raise e).
Proof.
  intros H0. pose proof (mean_speed_zero_raises self H0) as Hs.
  assert (Hinfo : exists e, show_training_info self = Raise e).
  { unfold show_training_info. apply bind_raises_after. intros vd.
    apply bind_raises. exact Hs. }
  split; [| split; [exact Hinfo | unfold main; apply bind_raises; exact Hinfo]].
  destruct self as [a d w | a d w | a d w h | a d w l c].
  - eexists; reflexivity.
  - change (get_spent_calories (Running a d w))
      with (Running_get_spent_calories (Running a d w)).
    unfold Running_get_spent_calories. apply bind_raises. exact Hs.
  - change (get_spent_calories (SportsWalking a d w h))
      with (SportsWalking_get_spent_calories (SportsWalking a d w h)).
    unfold SportsWalking_get_spent_calories.
    apply bind_raises_after. intros w1. apply bind_raises_after. intros w2.
    apply bind_raises. exact Hs.
  - change (get_spent_calories (Swimming a d w l c))
      with (Swimming_get_spent_calories (Swimming a d w l c)).
    unfold Swimming_get_spent_calories. apply bind_raises. exact Hs.
Qed.

Lemma zero_duration_no_report_witness :
  (exists e, get_spent_calories (SportsWalking (PInt 9000) (PFloat 0) (PInt 75) (PInt 180))
             = Raise e)
  /\ (exists e, show_training_info (SportsWalking (PInt 9000) (PFloat 0) (PInt 75) (PInt 180))
                = Raise e)
  /\ (exists e, main (SportsWalking (PInt 9000) (PFloat 0) (PInt 75) (PInt 180)) = Raise e).
Proof.
  apply (zero_duration_no_report (SportsWalking (PInt 9000) (PFloat 0) (PInt 75) (PInt 180))).
  reflexivity.
Defined.

(** Floor division by zero, integer or float, fails whatever the dividend. *)
Lemma py_floordiv_zero (x h : num) :
  py_is0 h = true -> exists e, py_floordiv x h = Raise e /\ arithmetic e.
Proof.
  intros H0. destruct (py_floordiv x h) as [v | e] eqn:Hq.
  - exfalso. revert Hq. unfold py_floordiv, coerce.
    destruct x as [a | a], h as [b | b]; cbn [py_is0] in H0; cbn [to_float bind].
    + unfold int_floor_div. rewrite H0. discriminate.
    + destruct (int_to_float a); cbn [bind]; [| discriminate].
      unfold float_floor_div. rewrite H0. discriminate.
    + apply Z.eqb_eq in H0. subst b. rewrite (proj1 int_to_float_small).
      cbn [bind]. unfold float_floor_div.
      change (0 =? 0)%float with true. discriminate.
    + unfold float_floor_div. rewrite H0. discriminate.
  - exists e. split; [reflexivity | exact (py_floordiv_raise _ _ _ Hq)].
Qed.

(** X5.  A walking record with a zero height, integer or float, has no spent
    calories: the floor division by the height fails, unless an earlier step
    already has; in both cases the exception is [ZeroDivisionError] or
    [OverflowError], and its summary fails too. *)
Theorem zero_height_no_calories (a d w h : num) :
  py_is0 h = true ->
  (exists e, get_spent_calories (SportsWalking a d w h) = Raise e /\ arithmetic e)
  /\ (exists e, show_training_info (SportsWalking a d w h) = Raise e).
Proof.
  intros H0.
  assert (Hc : exists e, get_spent_calories (SportsWalking a d w h) = Raise e).
  { change (get_spent_calories (SportsWalking a d w h))
      with (SportsWalking_get_spent_calories (SportsWalking a d w h)).
    unfold SportsWalking_get_spent_calories. cbn [height].
    do 4 (apply bind_raises_after; intros ?). cbn [bind].
    apply bind_raises.
    match goal with |- exists e, py_floordiv ?x h = Raise e =>
      destruct (py_floordiv_zero x h H0) as [e [He _]] end.
    exists e. exact He. }
  split.
  - destruct Hc as [e He]. exists e. split; [exact He |].
    apply (get_spent_calories_raise (SportsWalking a d w h)); [discriminate | exact He].
  - unfold show_training_info. do 2 (apply bind_raises_after; intros ?).
    apply bind_raises. exact Hc.
Qed.

Lemma zero_height_no_calories_witness :
  (exists e, get_spent_calories (SportsWalking (PInt 9000) (PInt 1) (PInt 75) (PInt 0))
             = Raise e /\ arithmetic e)
  /\ (exists e, show_training_info (SportsWalking (PInt 9000) (PInt 1) (PInt 75) (PInt 0))
                = Raise e).
Proof.
  apply (zero_height_no_calories (PInt 9000) (PInt 1) (PInt 75) (PInt 0)). reflexivity.
Defined.

(** X6.  An instance of the base class has a distance and a mean speed, by
    the inherited formulas, but no spent calories: [get_spent_calories] raises
    [NotImplementedError], so [show_training_info] and [main] never return for
    it, and raise that exception whenever the distance and the speed
    evaluate. *)
Theorem base_class_not_implemented (a d w : num) :
  get_distance (Training a d w) = Spec.distance 0.65 a
  /\ get_mean_speed (Training a d w) = Spec.base_speed a d
  /\ get_spent_calories (Training a d w)
     = Raise (NotImplementedError "Определить get_spent_calories")
  /\ (exists e, show_training_info (Training a d w) = Raise e)
  /\ (exists e, main (Training a d w) = Raise e)
  /\ (is_ok (get_mean_speed (Training a d w)) = true ->
      main (Training a d w)
      = Raise (NotImplementedError "Определить get_spent_calories")).
Proof.
  assert (Hinfo : exists e, show_training_info (Training a d w) = Raise e).
  { unfold show_training_info. do 2 (apply bind_raises_after; intros ?).
    eexists; reflexivity. }
  repeat (split; [reflexivity |]).
  split; [exact Hinfo |].
  split; [unfold main; apply bind_raises; exact Hinfo |].
  unfold main, show_training_info.
  change (get_mean_speed (Training a d w))
    with (distance <- get_distance (Training a d w) ;; py_truediv distance d).
  destruct (get_distance (Training a d w)); cbn [bind is_ok]; [| discriminate].
  destruct (py_truediv a0 d); cbn [bind is_ok]; [reflexivity | discriminate].
Qed.

Lemma base_class_not_implemented_witness :
  main (Training (PInt 15000) (PInt 1) (PInt 75))
  = Raise (NotImplementedError "Определить get_spent_calories").
Proof.
  apply (proj2 (proj2 (proj2 (proj2 (proj2
           (base_class_not_implemented (PInt 15000) (PInt 1) (PInt 75))))))).
  vm_compute. reflexivity.
Defined.

(** *** The dispatcher, read backwards *)

Lemma new_attributes (cls : Cls.t) (data : list num) (r : training) :
  new cls data = Ok r -> class_of r = cls /\ attributes r = data.
Proof.
  destruct cls;
    repeat (destruct data as [| ? data]; try discriminate);
    intros [= <-]; split; reflexivity.
Qed.

Lemma get_training_name_some (code : string) (cls : Cls.t) :
  get training_name code = Some cls ->
  In code known_codes /\ cls <> Cls.Training.
Proof.
  unfold training_name, known_codes. cbn [get map fst].
  destruct (String.eqb_spec "SWM" code) as [<- | _];
    [intros [= <-]; split; [cbn; tauto | discriminate] |].
  destruct (String.eqb_spec "RUN" code) as [<- | _];
    [intros [= <-]; split; [cbn; tauto | discriminate] |].
  destruct (String.eqb_spec "WLK" code) as [<- | _];
    [intros [= <-]; split; [cbn; tauto | discriminate] |].
  discriminate.
Qed.

(** X8.  A record that [read_package] returns tells its input: the code is a
    key of the dispatch table, the table maps it to the record's class, which
    is never the base class, and the attributes of the record are exactly the
    values given, in order. *)
Theorem read_package_inversion (code : string) (data : list num) (r : training) :
  read_package code data = Ok r ->
  In code known_codes
  /\ get training_name code = Some (class_of r)
  /\ class_of r <> Cls.Training
  /\ attributes r = data
  /\ length data = arity (class_of r).
Proof.
  unfold read_package, read_package_traced.
  destruct (get training_name code) as [cls | ] eqn:Hc; cbn [snd]; [| discriminate].
  intros Hn. destruct (new_attributes cls data r Hn) as [<- <-].
  destruct (get_training_name_some code _ Hc) as [Hin Hne].
  repeat (split; [assumption || reflexivity |]).
  destruct r; reflexivity.
Qed.

Lemma read_package_inversion_witness :
  In "WLK" known_codes
  /\ get training_name "WLK"
     = Some (class_of (SportsWalking (PInt 9000) (PInt 1) (PInt 75) (PInt 180)))
  /\ class_of (SportsWalking (PInt 9000) (PInt 1) (PInt 75) (PInt 180)) <> Cls.Training
  /\ attributes (SportsWalking (PInt 9000) (PInt 1) (PInt 75) (PInt 180))
     = [PInt 9000; PInt 1; PInt 75; PInt 180]
  /\ length [PInt 9000; PInt 1; PInt 75; PInt 180]
     = arity (class_of (SportsWalking (PInt 9000) (PInt 1) (PInt 75) (PInt 180))).
Proof.
  apply (read_package_inversion "WLK" [PInt 9000; PInt 1; PInt 75; PInt 180]).
  reflexivity.
Defined.

(** X9.  Every instance of a subclass is reached: some code of the dispatch
    table, with the attributes of the instance as values, makes [read_package]
    return that very instance. *)
Theorem read_package_round_trip (r : training) :
  class_of r <> Cls.Training ->
  exists code,
    In code known_codes
    /\ get training_name code = Some (class_of r)
    /\ read_package code (attributes r) = Ok r.
Proof.
  intros Hc. destruct r as [a d w | a d w | a d w h | a d w l c].
  - destruct Hc; reflexivity.
  - exists "RUN". cbn. tauto.
  - exists "WLK". cbn. tauto.
  - exists "SWM". cbn. tauto.
Qed.

Lemma read_package_round_trip_witness :
  exists code,
    In code known_codes
    /\ get training_name code
       = Some (class_of (Swimming (PInt 720) (PInt 1) (PInt 80) (PInt 25) (PInt 40)))
    /\ read_package code
         (attributes (Swimming (PInt 720) (PInt 1) (PInt 80) (PInt 25) (PInt 40)))
       = Ok (Swimming (PInt 720) (PInt 1) (PInt 80) (PInt 25) (PInt 40)).
Proof.
  apply (read_package_round_trip (Swimming (PInt 720) (PInt 1) (PInt 80) (PInt 25) (PInt 40))).
  discriminate.
Defined.

Lemma read_package_arity_witness :
  read_package_traced "SWM" [PInt 720; PInt 1; PInt 80]
  = ([Cls.Swimming], Raise TypeError).
Proof.
  apply (read_package_arity "SWM" Cls.Swimming [PInt 720; PInt 1; PInt 80]).
  - reflexivity.
  - discriminate.
Defined.

Lemma mean_speed_zero_duration_floats_witness :
  get_mean_speed (Running (PFloat 15000) (PFloat 0) (PFloat 75)) = Raise ZeroDivisionError.
Proof.
  apply (mean_speed_zero_duration_floats (Running (PFloat 15000) (PFloat 0) (PFloat 75))).
  - reflexivity.
  - exact I.
Defined.

(** X10.  Through the dispatcher the unimplemented base method is never
    reached: for a record that [read_package] returns, the spent calories,
    the summary and [main] fail only with [ZeroDivisionError] or
    [OverflowError]. *)
Theorem dispatched_failures_arithmetic (code : string) (data : list num) (r : training) :
  read_package code data = Ok r ->
  (forall e, get_spent_calories r = Raise e -> arithmetic e)
  /\ (forall e, show_training_info r = Raise e -> arithmetic e)
  /\ (forall e, main r = Raise e -> arithmetic e).
Proof.
  intros Hr.
  assert (Hc : class_of r <> Cls.Training).
  { unfold read_package, read_package_traced in Hr.
    destruct (get training_name code) as [cls | ] eqn:Hg; cbn [snd] in Hr;
      [| discriminate].
    destruct (new_attributes cls data r Hr) as [<- _].
    exact (proj2 (get_training_name_some code _ Hg)). }
  assert (Hinfo : forall e, show_training_info r = Raise e -> arithmetic e).
  { intros e. unfold show_training_info.
    destruct (get_distance r) eqn:Hd; cbn [bind];
      [| intros [= <-]; right; exact (proj2 (get_distance_cases r) _ Hd)].
    destruct (get_mean_speed r) eqn:Hs; cbn [bind];
      [| intros [= <-]; exact (proj2 (get_mean_speed_cases r) _ Hs)].
    destruct (get_spent_calories r) eqn:Hk; cbn [bind];
      [discriminate | intros [= <-]; exact (get_spent_calories_raise r _ Hc Hk)]. }
  split; [intros e; apply get_spent_calories_raise, Hc |].
  split; [exact Hinfo |].
  intros e. unfold main.
  destruct (show_training_info r) as [info | e0] eqn:Hi; cbn [bind];
    [| intros [= <-]; exact (Hinfo _ eq_refl)].
  revert Hi. unfold show_training_info.
  destruct (get_distance r); cbn [bind]; [| discriminate].
  destruct (get_mean_speed r); cbn [bind]; [| discriminate].
  destruct (get_spent_calories r); cbn [bind]; [| discriminate].
  intros [= <-]. rewrite get_message_default. intros He. right. revert He.
  repeat match goal with
         | |- context [format_f 3 ?n] =>
             destruct (format_f 3 n) eqn:?; cbn [bind];
             [| intros [= <-];
                match goal with H : format_f 3 _ = Raise _ |- _ =>
                  exact (format_f_raise _ _ _ H) end]
         end.
  discriminate.
Qed.

Lemma dispatched_failures_arithmetic_witness :
  read_package "RUN" [PInt 15000; PInt 0; PInt 75]
  = Ok (Running (PInt 15000) (PInt 0) (PInt 75))
  /\ main (Running (PInt 15000) (PInt 0) (PInt 75)) = Raise ZeroDivisionError
  /\ arithmetic ZeroDivisionError.
Proof.
  split; [reflexivity |]. split; [vm_compute; reflexivity |].
  apply (proj2 (proj2 (dispatched_failures_arithmetic "RUN"
                         [PInt 15000; PInt 0; PInt 75]
                         (Running (PInt 15000) (PInt 0) (PInt 75)) eq_refl))).
  vm_compute. reflexivity.
Defined.

(** *** The loop of the script *)

Lemma run_cons (p : string * list num) (ps : list (string * list num)) :
  run (p :: ps)
  = match process p with
    | Ok line => (line :: printed ps, stopped ps)
    | Raise e => ([], Some e)
    end.
Proof.
  destruct p as [workout_type data]. unfold printed, stopped, process. cbn [run fst snd].
  destruct (training <- read_package workout_type data ;; main training);
    [destruct (run ps); reflexivity | reflexivity].
Qed.

(** X12.  The loop composes: running two lists of packages one after the
    other prints the lines of the first and then those of the second, unless
    the first one stopped on an exception, which then ends the run. *)
Theorem run_app (ps qs : list (string * list num)) :
  run (ps ++ qs)%list
  = match stopped ps with
    | None => ((printed ps ++ printed qs)%list, stopped qs)
    | Some e => (printed ps, Some e)
    end.
Proof.
  induction ps as [| p ps IH].
  - cbn. unfold printed, stopped. destruct (run qs); reflexivity.
  - rewrite <- app_comm_cons. rewrite !run_cons.
    unfold printed, stopped in *. rewrite IH. rewrite run_cons.
    destruct (process p); cbn [fst snd]; [| reflexivity].
    unfold printed, stopped. destruct (snd (run ps)); reflexivity.
Qed.

Lemma run_failure (ps : list (string * list num)) :
  forall (p : string * list num) (qs : list (string * list num)) (e : exn),
    stopped ps = None -> process p = Raise e ->
    run (ps ++ p :: qs)%list = (printed ps, Some e).
Proof.
  induction ps as [| p0 ps IH]; intros p qs e Hs Hp.
  - cbn [app]. rewrite run_cons, Hp. reflexivity.
  - rewrite <- app_comm_cons. rewrite run_cons.
    unfold stopped, printed in Hs |- *. rewrite run_cons in Hs |- *.
    destruct (process p0); cbn [fst snd] in Hs |- *; [| discriminate].
    unfold printed, stopped. rewrite (IH p qs e Hs Hp). reflexivity.
Qed.

(** X13.  A package with a code outside the dispatch table halts the run: the
    lines of the packages before it are printed, the run ends with
    [NotImplementedError], and the packages after it are not processed,
    whatever they are. *)
Theorem run_halts_on_unknown_code
    (ps qs : list (string * list num)) (code : string) (data : list num) :
  stopped ps = None ->
  ~ In code known_codes ->
  run (ps ++ (code, data) :: qs)%list
  = (printed ps, Some (NotImplementedError "Возможно выкинуть исключение")).
Proof.
  intros Hs Hn. apply run_failure; [exact Hs |].
  unfold process, read_package, read_package_traced. cbn [fst snd].
  rewrite (get_training_name_none code Hn). reflexivity.
Qed.

Lemma run_halts_on_unknown_code_witness :
  run (packages ++ ("XYZ", [PInt 1; PInt 1; PInt 1]) :: packages)%list
  = (printed packages, Some (NotImplementedError "Возможно выкинуть исключение")).
Proof.
  apply (run_halts_on_unknown_code packages packages "XYZ" [PInt 1; PInt 1; PInt 1]).
  - vm_compute. reflexivity.
  - intros [H | [H | [H | []]]]; discriminate H.
Defined.

(** X14.  The run prints the lines of a prefix of the packages, in their order:
    each printed line is the line of the package at the same position, and
    the run either processed every package or stopped at the first package
    whose turn raises, with that exception. *)
Theorem run_prints_prefix (ps : list (string * list num)) :
  Forall2 (fun p line => process p = Ok line)
    (firstn (length (printed ps)) ps) (printed ps)
  /\ match stopped ps with
     | None => length (printed ps) = length ps
     | Some e =>
         exists p, nth_error ps (length (printed ps)) = Some p /\ process p = Raise e
     end.
Proof.
  induction ps as [| p ps [IHl IHs]].
  - split; [constructor | reflexivity].
  - unfold printed, stopped. rewrite run_cons.
    destruct (process p) as [line | e] eqn:Hp; cbn [fst snd length firstn nth_error].
    + split; [constructor; [exact Hp | exact IHl] |].
      destruct (stopped ps); [exact IHs | f_equal; exact IHs].
    + split; [constructor | exists p; split; [reflexivity | exact Hp]].
Qed.

(** *** Other templates *)

Lemma append_empty_r (s : string) : s ++ "" = s.
Proof. induction s as [| a s IH]; [reflexivity | cbn; f_equal; exact IH]. Qed.

Lemma append_snoc (acc : string) (c : ascii) (name : string) :
  snoc acc c ++ name = acc ++ String c name.
Proof.
  unfold snoc. induction acc as [| a acc IH]; [reflexivity | cbn; f_equal; exact IH].
Qed.

Lemma format_from_text (kw : kwargs) (s rest : string) :
  brace_free s = true ->
  format_from kw InText (s ++ rest)
  = (r <- format_from kw InText rest ;; Ok (s ++ r)).
Proof.
  induction s as [| c s IH]; intros Hs.
  - cbn [String.append]. destruct (format_from kw InText rest); reflexivity.
  - cbn [brace_free] in Hs.
    apply andb_prop in Hs as [Hc Hs]. apply andb_prop in Hc as [Ho Hcl].
    apply negb_true_iff in Ho, Hcl.
    cbn [String.append format_from]. rewrite Ho, Hcl, (IH Hs).
    destruct (format_from kw InText rest); reflexivity.
Qed.

Lemma name_char_plain (c : ascii) :
  name_char c = true -> Ascii.eqb c "}" = false /\ Ascii.eqb c ":" = false.
Proof.
  destruct c as [[] [] [] [] [] [] [] []]; vm_compute; intros H;
    solve [split; reflexivity | discriminate H].
Qed.

Lemma format_from_name (kw : kwargs) (name : string) :
  forall (acc rest : string),
    plain_name name = true ->
    format_from kw (InName acc) (name ++ String "}" rest)
    = (v <- render_field kw (acc ++ name) EmptyString ;;
       r <- format_from kw InText rest ;; Ok (v ++ r)).
Proof.
  induction name as [| c name IH]; intros acc rest Hn.
  - cbn [String.append format_from].
    change (Ascii.eqb "}" "}") with true. cbv iota.
    rewrite append_empty_r. reflexivity.
  - cbn [plain_name] in Hn. apply andb_prop in Hn as [Hc Hn].
    destruct (name_char_plain c Hc) as [Hcl Hco].
    cbn [String.append format_from]. rewrite Hcl, Hco, (IH _ _ Hn).
    rewrite append_snoc. reflexivity.
Qed.

Lemma format_from_open (kw : kwargs) (c : ascii) (r : string) :
  name_char c = true ->
  format_from kw InText (String "{" (String c r))
  = format_from kw (InName "") (String c r).
Proof.
  destruct c as [[] [] [] [] [] [] [] []]; intros H;
    solve [reflexivity | vm_compute in H; discriminate H].
Qed.

Lemma lookup_asdict_missing (info : InfoMessage.t) (name : string) :
  ~ In name field_names -> lookup (InfoMessage.asdict info) name = Raise KeyError.
Proof.
  intros Hn. unfold InfoMessage.asdict. cbn [lookup].
  repeat match goal with
         | |- context [String.eqb ?k name] =>
             destruct (String.eqb_spec k name) as [E | _];
             [exfalso; apply Hn; rewrite <- E; cbn; tauto |]
         end.
  reflexivity.
Qed.

(** X15.  A message without braces is returned as it is: [get_message]
    replaces nothing in it and never fails, whatever the numbers. *)
Theorem get_message_brace_free (info : InfoMessage.t) :
  brace_free (InfoMessage.message info) = true ->
  InfoMessage.get_message info = Ok (InfoMessage.message info).
Proof.
  intros Hb. unfold InfoMessage.get_message, format.
  rewrite <- (append_empty_r (InfoMessage.message info)) at 1.
  rewrite (format_from_text _ _ "" Hb). cbn [format_from bind].
  rewrite append_empty_r. reflexivity.
Qed.

Lemma get_message_brace_free_witness :
  InfoMessage.get_message
    (InfoMessage.mk "Running" (PInt (2 ^ 1024)) (PFloat nan) (PInt 0) (PInt 0)
       "Бег: без чисел.")
  = Ok "Бег: без чисел.".
Proof.
  apply (get_message_brace_free
           (InfoMessage.mk "Running" (PInt (2 ^ 1024)) (PFloat nan) (PInt 0) (PInt 0)
              "Бег: без чисел.")).
  reflexivity.
Defined.

(** X16.  A message whose first replacement field names something that is not
    a field of the dataclass makes [get_message] raise [KeyError], whatever
    follows the field: here the field has a name of letters and underscores
    and comes after text without braces. *)
Theorem get_message_unknown_field
    (kind : string) (dur dist spd cal : num) (before name after : string) :
  brace_free before = true ->
  plain_name name = true -> name <> "" ->
  ~ In name field_names ->
  InfoMessage.get_message
    (InfoMessage.mk kind dur dist spd cal (before ++ "{" ++ name ++ "}" ++ after))
  = Raise KeyError.
Proof.
  intros Hb Hp Hne Hn. unfold InfoMessage.get_message, format.
  cbn [InfoMessage.message]. rewrite (format_from_text _ _ _ Hb).
  destruct name as [| c name]; [destruct Hne; reflexivity |].
  pose proof Hp as Hcn. cbn [plain_name] in Hcn. apply andb_prop in Hcn as [Hc _].
  cbn [String.append]. rewrite (format_from_open _ c _ Hc).
  change (String c (name ++ String "}" after))
    with (String c name ++ String "}" after).
  rewrite (format_from_name _ _ "" after Hp).
  cbn [String.append]. unfold render_field.
  rewrite lookup_asdict_missing by exact Hn. reflexivity.
Qed.

Lemma get_message_unknown_field_witness :
  InfoMessage.get_message
    (InfoMessage.mk "Running" (PInt 1) (PFloat 9.75) (PFloat 9.75) (PFloat 699.75)
       ("Темп: " ++ "{" ++ "pace" ++ "}" ++ " мин/км; {duration:.3f} ч."))
  = Raise KeyError.
Proof.
  apply (get_message_unknown_field "Running" (PInt 1) (PFloat 9.75) (PFloat 9.75)
           (PFloat 699.75) "Темп: " "pace" " мин/км; {duration:.3f} ч.").
  - reflexivity.
  - reflexivity.
  - discriminate.
  - intros [H | [H | [H | [H | [H | [H | []]]]]]]; discriminate H.
Defined.

(** *** The outcomes of the mean speed *)

Lemma py_truediv_float_l (x : float) (d : num) :
  py_truediv (PFloat x) d = (f <- to_float d ;; float_div x f).
Proof. destruct d; reflexivity. Qed.

(** X17.  The mean speed has exactly these outcomes.  It raises
    [ZeroDivisionError] exactly when its dividend evaluates and the duration,
    as a double, is zero; it returns exactly when the dividend evaluates and
    the duration converts to a non-zero double, and the value is then the
    quotient of the two doubles. *)
Theorem mean_speed_outcomes (self : training) :
  (get_mean_speed self = Raise ZeroDivisionError
   <-> exists x f,
         Spec.speed_dividend self = Ok (PFloat x)
         /\ to_float (duration self) = Ok f /\ (f =? 0)%float = true)
  /\ (forall v,
        get_mean_speed self = Ok v
        <-> exists x f,
              Spec.speed_dividend self = Ok (PFloat x)
              /\ to_float (duration self) = Ok f /\ (f =? 0)%float = false
              /\ v = PFloat (x / f)).
Proof.
  rewrite mean_speed_dividend.
  destruct (speed_dividend_cases self) as [Hok Hraise].
  destruct (Spec.speed_dividend self) as [x | e0]; cbn [bind].
  - destruct (Hok x eq_refl) as [fx ->]. rewrite py_truediv_float_l.
    destruct (to_float (duration self)) as [f | e] eqn:Hd; cbn [bind].
    + unfold float_div. destruct (f =? 0)%float eqn:Hf; split.
      * split; [intros _; exists fx, f; auto | reflexivity].
      * intros v; split; [discriminate |].
        intros [x' [f' [_ [[= <-] [Hf' _]]]]]. congruence.
      * split; [discriminate |].
        intros [x' [f' [_ [[= <-] Hf']]]]. congruence.
      * intros v; split.
        -- intros [= <-]. exists fx, f. auto.
        -- intros [x' [f' [[= <-] [[= <-] [_ ->]]]]]. reflexivity.
    + rewrite (to_float_raise _ _ Hd). split.
      * split; [discriminate | intros [x' [f' [_ [Hf' _]]]]; discriminate Hf'].
      * intros v; split; [discriminate |].
        intros [x' [f' [_ [Hf' _]]]]; discriminate Hf'.
  - rewrite (Hraise e0 eq_refl). split.
    + split; [discriminate | intros [x [f [H _]]]; discriminate H].
    + intros v; split; [discriminate | intros [x [f [H _]]]; discriminate H].
Qed.

Lemma mean_speed_outcomes_witness :
  get_mean_speed (Running (PInt 15000) (PInt 2) (PInt 75)) = Ok (PFloat (9.75 / 2)).
Proof.
  apply (proj2 (mean_speed_outcomes (Running (PInt 15000) (PInt 2) (PInt 75)))).
  exists 9.75%float, 2%float. repeat split; vm_compute; reflexivity.
Defined.
